(** * robot_skills: the arm skill ([src/robot_skills/arms.py])

    A shallow embedding of [class Arm]: the hardware-status callback, the
    Cartesian goal builders [send_goal] / [send_delta_goal], the named joint
    goals, the gripper command, the handover helpers and the low level
    [_send_joint_trajectory].

    Python methods mutate [self] and talk to ROS (loggers, publishers, action
    clients).  They are embedded in a small monad that threads the [Arm]
    object, may raise a Python exception, and records every call made to an
    external collaborator as an [Event].  What a collaborator answers is
    read from an [Env] record.

    [class Head] ([src/robot_skills/head.py]) follows in [Module Head]. *)

From Stdlib Require Import ZArith String List Bool Ascii Lia.
From stdpp Require Import base gmap strings.
Import ListNotations.

Local Open Scope string_scope.
Local Open Scope Z_scope.

(** ** Python numbers

    Poses, offsets and timeouts are Python numbers (floats in practice).  The
    code only adds them, multiplies a timeout by a [len], and compares a
    timeout with [0.0]; these operations are kept abstract so that every
    statement below holds for whatever arithmetic the interpreter supplies. *)

Class Scalar (num : Type) := {
  of_Z : Z -> num;                    (* an integer literal, [5] or [0.0] *)
  add : num -> num -> num;            (* [a + b], as used by [+=] *)
  mul_len : num -> nat -> num;        (* [timeout * len(xs)] *)
  num_eqb : num -> num -> bool        (* [a == b] *)
}.

(** [0.0], also the default of a numeric message field. *)
Definition zero {num} `{Scalar num} : num := of_Z 0.

#[export] Instance Z_Scalar : Scalar Z := {
  of_Z := fun n => n;
  add := Z.add;
  mul_len := fun t n => t * Z.of_nat n;
  num_eqb := Z.eqb
}.

(** ** Strings: [str.find] *)

(** [s.find(sub)]: the lowest index at which [sub] occurs in [s], or [-1]. *)
Fixpoint find (s sub : string) : Z :=
  if String.prefix sub s then 0
  else match s with
       | EmptyString => -1
       | String _ s' => let r := find s' sub in if r <? 0 then -1 else r + 1
       end.

(** ** Messages of the external packages (field layout only) *)

(** [actionlib.GoalStatus]. *)
Inductive GoalStatus :=
  | PENDING | ACTIVE | PREEMPTED | SUCCEEDED | ABORTED
  | REJECTED | PREEMPTING | RECALLING | RECALLED | LOST.

Definition GoalStatus_eqb (a b : GoalStatus) : bool :=
  match a, b with
  | PENDING, PENDING | ACTIVE, ACTIVE | PREEMPTED, PREEMPTED
  | SUCCEEDED, SUCCEEDED | ABORTED, ABORTED | REJECTED, REJECTED
  | PREEMPTING, PREEMPTING | RECALLING, RECALLING | RECALLED, RECALLED
  | LOST, LOST => true
  | _, _ => false
  end.

(** [tue_msgs.GripperCommand.OPEN] / [.CLOSE]. *)
Inductive Direction := OPEN | CLOSE.

(** One entry of [DiagnosticArray.status]. *)
Record DiagnosticStatus := { name : string; level : Z }.
Record DiagnosticArray := { status : list DiagnosticStatus }.

(** A colour component as [_publish_marker] receives it: [color[i]] is a
    number when the caller passes a list and a character when the caller
    passes a string. *)
Inductive ColorVal := CNum (n : Z) | CChr (c : ascii).

(** What a timeout argument of [_send_joint_trajectory] can be: the default
    is a [rospy.Duration], the comparison in the body is with the float
    [0.0]. *)
Inductive TimeoutVal (num : Type) := Seconds (t : num) | Duration (t : num).
Arguments Seconds {num} t.
Arguments Duration {num} t.

(** Python exceptions the modelled code can raise. *)
Inductive Exn :=
  | KeyError (key : string)
  | IndexError
  | UnboundLocalError (var : string).

Inductive Outcome (A : Type) := Return (a : A) | Raise (e : Exn).
Arguments Return {A} a.
Arguments Raise {A} e.

Section ArmModel.

Context {num : Type} `{Scalar num} {Entity : Type}.

(** The [goal] and [delta] sub-messages of [GraspPrecomputeGoal]. *)
Record Target := {
  frame_id : string;
  x : num; y : num; z : num;
  roll : num; pitch : num; yaw : num
}.

Record GraspPrecomputeGoal := {
  goal : Target;
  delta : Target;
  PERFORM_PRE_GRASP : bool;
  FIRST_JOINT_POS_ONLY : bool;
  allowed_touch_objects : list string
}.

(** [GraspPrecomputeGoal()]: every field at its default. *)
Definition Target_new : Target :=
  {| frame_id := ""; x := zero; y := zero; z := zero;
     roll := zero; pitch := zero; yaw := zero |}.

Definition GraspPrecomputeGoal_new : GraspPrecomputeGoal :=
  {| goal := Target_new; delta := Target_new;
     PERFORM_PRE_GRASP := false; FIRST_JOINT_POS_ONLY := false;
     allowed_touch_objects := [] |}.

Definition set_goal (g : GraspPrecomputeGoal) (t : Target) :=
  {| goal := t; delta := delta g;
     PERFORM_PRE_GRASP := PERFORM_PRE_GRASP g;
     FIRST_JOINT_POS_ONLY := FIRST_JOINT_POS_ONLY g;
     allowed_touch_objects := allowed_touch_objects g |}.

Definition set_delta (g : GraspPrecomputeGoal) (t : Target) :=
  {| goal := goal g; delta := t;
     PERFORM_PRE_GRASP := PERFORM_PRE_GRASP g;
     FIRST_JOINT_POS_ONLY := FIRST_JOINT_POS_ONLY g;
     allowed_touch_objects := allowed_touch_objects g |}.

Definition set_flags (g : GraspPrecomputeGoal) (pre first : bool) :=
  {| goal := goal g; delta := delta g;
     PERFORM_PRE_GRASP := pre; FIRST_JOINT_POS_ONLY := first;
     allowed_touch_objects := allowed_touch_objects g |}.

Definition set_allowed_touch_objects (g : GraspPrecomputeGoal) (l : list string) :=
  {| goal := goal g; delta := delta g;
     PERFORM_PRE_GRASP := PERFORM_PRE_GRASP g;
     FIRST_JOINT_POS_ONLY := FIRST_JOINT_POS_ONLY g;
     allowed_touch_objects := l |}.

(** [visualization_msgs.Marker], the fields [_publish_marker] derives from
    its arguments (type, lifetime, scale, alpha and the stamp are constants
    or clock reads). *)
Record Marker := {
  marker_frame_id : string;
  position_x : num; position_y : num; position_z : num;
  ns : string;
  color_r : ColorVal; color_g : ColorVal; color_b : ColorVal
}.

Record JointTrajectoryPoint := { positions : list num }.

Record FollowJointTrajectoryGoal := {
  trajectory_joint_names : list string;
  trajectory_points : list JointTrajectoryPoint;
  goal_time_tolerance : TimeoutVal num
}.

(** The arguments of [send_goal] / [send_delta_goal] as saved by
    [myargs = locals()] on entry. *)
Record GoalArgs := {
  arg_px : num; arg_py : num; arg_pz : num;
  arg_roll : num; arg_pitch : num; arg_yaw : num;
  arg_timeout : num;
  arg_pre_grasp : bool;
  arg_frame_id : string;
  arg_use_offset : option bool;           (* [send_delta_goal] only *)
  arg_first_joint_pos_only : bool;
  arg_allowed_touch_objects : option (list string)   (* [send_goal] only *)
}.

(** Log lines, by call site. *)
Inductive LogMsg :=
  | NoDiagnosticMsg (side : string)
  | MultipleDiagnosticMsgs (side : string)
  | GraspPrecomputeFrameId (frame_id : string)
  | GraspPrecomputeGoalFailed (myargs : GoalArgs)
  | DefaultConfigurationDoesNotExist (configuration : string)
  | DefaultTrajectoriesDoesNotExist (configuration : string)
  | StateShouldBeOpenOrClose (state : string)
  | HandoverException
  | JointTrajectoryActionNotPresent
  | UseCorrectNumberOfJointReferences (expected current : nat)
  | SendArmToJointcoords (side : string) (ps : list JointTrajectoryPoint)
  | CannotReachJointGoal (g : FollowJointTrajectoryGoal)
  | CancellingAllGoals (side : string).

Inductive LogLevel := LogDebug | LogInfo | LogWarn | LogErr.

(** Every call that leaves the [Arm] object. *)
Inductive Event :=
  | Log (lvl : LogLevel) (msg : LogMsg)
  | PrintLine (line : string)
  | PublishMarker (m : Marker)
  | PublishBool (topic : string) (data : bool)
  | WaitForMessage (topic : string) (timeout : num)
  | GraspPrecomputeSendGoal (g : GraspPrecomputeGoal)
  | GraspPrecomputeSendGoalAndWait (g : GraspPrecomputeGoal) (execute_timeout : num)
  | GripperSendGoal (direction : Direction)
  | GripperWaitForResult (timeout : num)
  | GripperGetState
  | JointTrajWaitForServer
  | JointTrajSendGoal (g : FollowJointTrajectoryGoal)
  | JointTrajWaitForResult (timeout : TimeoutVal num)
  | GripperCancelAllGoals
  | GraspPrecomputeCancelAllGoals
  | JointTrajCancelAllGoals.

(** What the collaborators answer during one call. *)
Record Env := {
  grasp_precompute_result : GraspPrecomputeGoal -> GoalStatus;
      (* [_ac_grasp_precompute.send_goal_and_wait(goal, ...)] *)
  gripper_state : GoalStatus;
      (* [_ac_gripper.get_state()] after [wait_for_result] *)
  joint_traj_server : bool;
      (* [_ac_joint_traj.wait_for_server(...)] *)
  joint_traj_done : FollowJointTrajectoryGoal -> bool;
      (* [_ac_joint_traj.wait_for_result(...)] *)
  handover_reply : string -> option bool
      (* [rospy.wait_for_message(topic, Bool, timeout)]: the message, or
         [None] when it raises [ROSException] *)
}.

(** The attributes of an [Arm] instance. *)
Record Arm := {
  robot_name : string;
  side : string;
  _occupied_by : option Entity;
  _operational : bool;
  offset : gmap string num;
  joint_names : list string;
  default_configurations : gmap string (list num);
  default_trajectories : gmap string (list (list num));
  _ac_joint_traj_present : bool
}.

Definition set_occupied_by (self : Arm) (v : option Entity) : Arm :=
  {| robot_name := robot_name self; side := side self;
     _occupied_by := v; _operational := _operational self;
     offset := offset self; joint_names := joint_names self;
     default_configurations := default_configurations self;
     default_trajectories := default_trajectories self;
     _ac_joint_traj_present := _ac_joint_traj_present self |}.

Definition set_operational (self : Arm) (b : bool) : Arm :=
  {| robot_name := robot_name self; side := side self;
     _occupied_by := _occupied_by self; _operational := b;
     offset := offset self; joint_names := joint_names self;
     default_configurations := default_configurations self;
     default_trajectories := default_trajectories self;
     _ac_joint_traj_present := _ac_joint_traj_present self |}.

Definition set_ac_joint_traj_present (self : Arm) (b : bool) : Arm :=
  {| robot_name := robot_name self; side := side self;
     _occupied_by := _occupied_by self; _operational := _operational self;
     offset := offset self; joint_names := joint_names self;
     default_configurations := default_configurations self;
     default_trajectories := default_trajectories self;
     _ac_joint_traj_present := b |}.

(** ** The method monad

    A method body maps the object to an outcome, the object afterwards and
    the events it emitted, oldest first.  After [Raise] nothing more runs. *)

Definition M (A : Type) : Type := Arm -> Outcome A * Arm * list Event.

Definition ret {A} (a : A) : M A := fun self => (Return a, self, []).

Definition bind {A B} (m : M A) (f : A -> M B) : M B :=
  fun self =>
    match m self with
    | (Return a, self1, t1) =>
        match f a self1 with
        | (o, self2, t2) => (o, self2, (t1 ++ t2)%list)
        end
    | (Raise e, self1, t1) => (Raise e, self1, t1)
    end.

Definition raise {A} (e : Exn) : M A := fun self => (Raise e, self, []).
Definition get_self : M Arm := fun self => (Return self, self, []).
Definition put_self (self' : Arm) : M unit := fun _ => (Return tt, self', []).
Definition emit (e : Event) : M unit := fun self => (Return tt, self, [e]).

Definition result {A} (r : Outcome A * Arm * list Event) : Outcome A := fst (fst r).
Definition self_after {A} (r : Outcome A * Arm * list Event) : Arm := snd (fst r).
Definition events {A} (r : Outcome A * Arm * list Event) : list Event := snd r.

Notation "x <- m ;; k" := (bind m (fun x => k))
  (at level 100, m at next level, right associativity, only parsing).
Notation "m ;;; k" := (bind m (fun _ => k))
  (at level 100, right associativity, only parsing).

Definition log (lvl : LogLevel) (msg : LogMsg) : M unit := emit (Log lvl msg).

(** [d[key]] on a dict. *)
Definition getitem {V} (d : gmap string V) (key : string) : M V :=
  match d !! key with
  | Some v => ret v
  | None => raise (KeyError key)
  end.

(** ** [Arm.close] *)
Definition close : M unit :=
  self <- get_self ;;
  log LogInfo (CancellingAllGoals (side self)) ;;;
  emit GripperCancelAllGoals ;;;
  emit GraspPrecomputeCancelAllGoals ;;;
  emit JointTrajCancelAllGoals.

(** ** [Arm.operational] *)
Definition operational : M bool :=
  self <- get_self ;; ret (_operational self).

(** ** [Arm.cb_hardware_status] *)
Definition cb_hardware_status (msg : DiagnosticArray) : M unit :=
  self <- get_self ;;
  let diags :=
    List.filter (fun diag => String.eqb (name diag) (side self ++ "_arm"))
                (status msg) in
  if (length diags =? 0)%nat then
    log LogWarn (NoDiagnosticMsg (side self))
  else if negb (length diags =? 1)%nat then
    log LogWarn (MultipleDiagnosticMsgs (side self))
  else
    match diags with
    | [] => raise IndexError
    | d :: _ =>
        let level := level d in
        if negb (level =? 2) then put_self (set_operational self false)
        else put_self (set_operational self true)
    end.

(** ** [Arm._publish_marker]

    The marker reads [goal.goal] whatever the caller filled in. *)
Definition _publish_marker (g : GraspPrecomputeGoal)
    (color : ColorVal * ColorVal * ColorVal) (ns : string) : M unit :=
  let '(c0, c1, c2) := color in
  emit (PublishMarker
          {| marker_frame_id := frame_id (goal g);
             position_x := x (goal g);
             position_y := y (goal g);
             position_z := z (goal g);
             ns := ns;
             color_r := c0; color_g := c1; color_b := c2 |}).

(** ** [Arm.send_goal] *)

(** "If necessary, prefix frame_id" (the first statement of [send_goal]). *)
Definition prefix_frame_id (frame_id : string) : M string :=
  self <- get_self ;;
  if find frame_id (robot_name self) <? 0 then
    let frame_id := "/" ++ robot_name self ++ frame_id in
    log LogInfo (GraspPrecomputeFrameId frame_id) ;;;
    ret frame_id
  else ret frame_id.

Definition send_goal (env : Env) (px py pz roll pitch yaw : num)
    (timeout : num) (pre_grasp : bool) (frame_id : string)
    (first_joint_pos_only : bool) (allowed_touch_objects : list string)
    : M bool :=
  let myargs :=
    {| arg_px := px; arg_py := py; arg_pz := pz;
       arg_roll := roll; arg_pitch := pitch; arg_yaw := yaw;
       arg_timeout := timeout; arg_pre_grasp := pre_grasp;
       arg_frame_id := frame_id; arg_use_offset := None;
       arg_first_joint_pos_only := first_joint_pos_only;
       arg_allowed_touch_objects := Some allowed_touch_objects |} in
  self <- get_self ;;
  frame_id <- prefix_frame_id frame_id ;;
  let g := GraspPrecomputeGoal_new in
  let g := set_flags g pre_grasp first_joint_pos_only in
  let g := set_allowed_touch_objects g allowed_touch_objects in
  let g := set_goal g {| frame_id := frame_id;
                         x := px; y := py; z := pz;
                         roll := roll; pitch := pitch; yaw := yaw |} in
  _publish_marker g (CNum 1, CNum 0, CNum 0) "grasp_point" ;;;
  ox <- getitem (offset self) "x" ;;
  oy <- getitem (offset self) "y" ;;
  oz <- getitem (offset self) "z" ;;
  oroll <- getitem (offset self) "roll" ;;
  opitch <- getitem (offset self) "pitch" ;;
  oyaw <- getitem (offset self) "yaw" ;;
  let g := set_goal g {| frame_id := frame_id;
                         x := add px ox; y := add py oy; z := add pz oz;
                         roll := add roll oroll;
                         pitch := add pitch opitch;
                         yaw := add yaw oyaw |} in
  _publish_marker g (CNum 0, CNum 1, CNum 0) "grasp_point_corrected" ;;;
  if num_eqb timeout zero then
    emit (GraspPrecomputeSendGoal g) ;;;
    ret true
  else
    emit (GraspPrecomputeSendGoalAndWait g timeout) ;;;
    let result := grasp_precompute_result env g in
    if GoalStatus_eqb result SUCCEEDED then ret true
    else
      log LogErr (GraspPrecomputeGoalFailed myargs) ;;;
      ret false.

(** ** [Arm.send_delta_goal] *)
Definition send_delta_goal (env : Env) (px py pz roll pitch yaw : num)
    (timeout : num) (pre_grasp : bool) (frame_id : string)
    (use_offset : bool) (first_joint_pos_only : bool) : M bool :=
  let myargs :=
    {| arg_px := px; arg_py := py; arg_pz := pz;
       arg_roll := roll; arg_pitch := pitch; arg_yaw := yaw;
       arg_timeout := timeout; arg_pre_grasp := pre_grasp;
       arg_frame_id := frame_id; arg_use_offset := Some use_offset;
       arg_first_joint_pos_only := first_joint_pos_only;
       arg_allowed_touch_objects := None |} in
  let g := GraspPrecomputeGoal_new in
  let g := set_flags g pre_grasp first_joint_pos_only in
  let g := set_delta g {| frame_id := frame_id;
                          x := px; y := py; z := pz;
                          roll := roll; pitch := pitch; yaw := yaw |} in
  _publish_marker g (CChr "r", CChr "e", CChr "d") "" ;;;
  if num_eqb timeout zero then
    emit (GraspPrecomputeSendGoal g) ;;;
    ret true
  else
    emit (GraspPrecomputeSendGoalAndWait g timeout) ;;;
    let result := grasp_precompute_result env g in
    if GoalStatus_eqb result SUCCEEDED then ret true
    else
      log LogErr (GraspPrecomputeGoalFailed myargs) ;;;
      ret false.

(** ** [Arm._send_joint_trajectory] *)

(** [timeout != 0.0]: a [rospy.Duration] never equals a float. *)
Definition timeout_neq_zero (timeout : TimeoutVal num) : bool :=
  match timeout with
  | Seconds t => negb (num_eqb t zero)
  | Duration _ => true
  end.

(** [timeout * len(joints_references)]. *)
Definition timeout_mul (timeout : TimeoutVal num) (n : nat) : TimeoutVal num :=
  match timeout with
  | Seconds t => Seconds (mul_len t n)
  | Duration t => Duration (mul_len t n)
  end.

(** The [for joints_reference in joints_references] loop: [n_names] is
    [len(self.joint_names)] and [n_refs] is [len(joints_references)], the
    two numbers the warning prints. *)
Fixpoint trajectory_points_loop (n_names n_refs : nat)
    (joints_references : list (list num)) : M (list JointTrajectoryPoint) :=
  match joints_references with
  | [] => ret []
  | joints_reference :: rest =>
      (if negb (length joints_reference =? n_names)%nat then
         log LogWarn (UseCorrectNumberOfJointReferences n_names n_refs)
       else ret tt) ;;;
      ps <- trajectory_points_loop n_names n_refs rest ;;
      ret ({| positions := joints_reference |} :: ps)
  end.

Definition _send_joint_trajectory (env : Env)
    (joints_references : list (list num)) (timeout : TimeoutVal num) : M bool :=
  self <- get_self ;;
  (if negb (_ac_joint_traj_present self) then
     emit JointTrajWaitForServer ;;;
     put_self (set_ac_joint_traj_present self (joint_traj_server env))
   else ret tt) ;;;
  self <- get_self ;;
  if negb (_ac_joint_traj_present self) then
    log LogWarn JointTrajectoryActionNotPresent ;;;
    ret false
  else
    ps <- trajectory_points_loop (length (joint_names self))
            (length joints_references) joints_references ;;
    let g := {| trajectory_joint_names := joint_names self;
                trajectory_points := ps;
                goal_time_tolerance := timeout |} in
    log LogDebug (SendArmToJointcoords (side self) ps) ;;;
    emit (JointTrajSendGoal g) ;;;
    if timeout_neq_zero timeout then
      emit (JointTrajWaitForResult
              (timeout_mul timeout (length joints_references))) ;;;
      let done := joint_traj_done env g in
      (if negb done then log LogWarn (CannotReachJointGoal g) else ret tt) ;;;
      ret done
    else
      (* [return done] with [done] never assigned *)
      raise (UnboundLocalError "done").

(** The default [timeout=rospy.Duration(5)]. *)
Definition default_joint_timeout : TimeoutVal num := Duration (of_Z 5).

(** ** [Arm.send_joint_goal], [Arm.send_joint_trajectory], [Arm.reset] *)
Definition send_joint_goal (env : Env) (configuration : string) : M bool :=
  self <- get_self ;;
  match default_configurations self !! configuration with
  | Some c => _send_joint_trajectory env [c] default_joint_timeout
  | None =>
      log LogWarn (DefaultConfigurationDoesNotExist configuration) ;;;
      ret false
  end.

Definition send_joint_trajectory (env : Env) (configuration : string) : M bool :=
  self <- get_self ;;
  match default_trajectories self !! configuration with
  | Some t => _send_joint_trajectory env t default_joint_timeout
  | None =>
      log LogWarn (DefaultTrajectoriesDoesNotExist configuration) ;;;
      ret false
  end.

Definition reset (env : Env) : M bool := send_joint_goal env "reset".

(** ** [Arm.occupied_by] (getter and setter) *)
Definition occupied_by : M (option Entity) :=
  self <- get_self ;; ret (_occupied_by self).

Definition occupied_by_setter (value : option Entity) : M unit :=
  self <- get_self ;; put_self (set_occupied_by self value).

(** ** [Arm.send_gripper_goal]

    [timeout] is [None] for Python's [None]. *)
Definition send_gripper_goal (env : Env) (state : string)
    (timeout : option num) : M bool :=
  match (if String.eqb state "open" then Some OPEN
         else if String.eqb state "close" then Some CLOSE
         else None) with
  | None =>
      log LogErr (StateShouldBeOpenOrClose state) ;;;
      ret false
  | Some direction =>
      emit (GripperSendGoal direction) ;;;
      match timeout with
      | Some t =>
          if num_eqb t zero then
            (if String.eqb state "open" then occupied_by_setter None
             else ret tt) ;;;
            ret true
          else
            emit (GripperWaitForResult t) ;;;
            emit GripperGetState ;;;
            if GoalStatus_eqb (gripper_state env) SUCCEEDED then
              (if String.eqb state "open" then occupied_by_setter None
               else ret tt) ;;;
              ret true
            else ret false
      | None =>
          (if String.eqb state "open" then occupied_by_setter None
           else ret tt) ;;;
          ret true
      end
  end.

(** ** [Arm.handover_to_human], [Arm.handover_to_robot] *)
Definition handover_result_topic (self : Arm) : string :=
  "/" ++ robot_name self ++ "/handoverdetector_" ++ side self ++ "/result".

Definition handover_to_human (env : Env) (timeout : num) : M bool :=
  self <- get_self ;;
  emit (PublishBool ("/" ++ robot_name self ++ "/handoverdetector_"
                         ++ side self ++ "/toggle_robot2human") true) ;;;
  emit (WaitForMessage (handover_result_topic self) timeout) ;;;
  match handover_reply env (handover_result_topic self) with
  | Some _ =>
      emit (PrintLine (handover_result_topic self)) ;;;
      ret true
  | None =>
      log LogErr HandoverException ;;;
      ret false
  end.

Definition handover_to_robot (env : Env) (timeout : num) : M bool :=
  self <- get_self ;;
  emit (PublishBool ("/" ++ robot_name self ++ "/handoverdetector_"
                         ++ side self ++ "/toggle_human2robot") true) ;;;
  emit (WaitForMessage (handover_result_topic self) timeout) ;;;
  match handover_reply env (handover_result_topic self) with
  | Some _ =>
      emit (PrintLine (handover_result_topic self)) ;;;
      ret true
  | None =>
      log LogErr HandoverException ;;;
      ret false
  end.

(** ** Reading a trace *)

(** The markers published, oldest first. *)
Fixpoint markers_of (t : list Event) : list Marker :=
  match t with
  | [] => []
  | PublishMarker m :: t' => m :: markers_of t'
  | _ :: t' => markers_of t'
  end.

(** The goals handed to the grasp-precompute endpoint, oldest first. *)
Fixpoint grasp_goals_of (t : list Event) : list GraspPrecomputeGoal :=
  match t with
  | [] => []
  | GraspPrecomputeSendGoal g :: t' => g :: grasp_goals_of t'
  | GraspPrecomputeSendGoalAndWait g _ :: t' => g :: grasp_goals_of t'
  | _ :: t' => grasp_goals_of t'
  end.

(** The goals handed to the gripper and to the joint-trajectory endpoint. *)
Fixpoint gripper_goals_of (t : list Event) : list Direction :=
  match t with
  | [] => []
  | GripperSendGoal d :: t' => d :: gripper_goals_of t'
  | _ :: t' => gripper_goals_of t'
  end.

Fixpoint joint_goals_of (t : list Event) : list FollowJointTrajectoryGoal :=
  match t with
  | [] => []
  | JointTrajSendGoal g :: t' => g :: joint_goals_of t'
  | _ :: t' => joint_goals_of t'
  end.

(** Does the event block the caller until an endpoint reports a result? *)
Definition awaits_result (e : Event) : bool :=
  match e with
  | GraspPrecomputeSendGoalAndWait _ _
  | GripperWaitForResult _
  | JointTrajWaitForResult _ => true
  | _ => false
  end.

Definition waited (t : list Event) : bool := existsb awaits_result t.

(** [timeout == 0.0 or timeout is None]. *)
Definition fire_and_forget (timeout : option num) : bool :=
  match timeout with
  | Some t => num_eqb t zero
  | None => true
  end.

(** The warnings the waypoint loop prints: one per waypoint whose length is
    not [n_names]. *)
Definition mismatch_warnings (n_names n_refs : nat)
    (joints_references : list (list num)) : list Event :=
  flat_map (fun joints_reference =>
              if negb (length joints_reference =? n_names)%nat
              then [Log LogWarn (UseCorrectNumberOfJointReferences n_names n_refs)]
              else [])
           joints_references.

(** The six keys of the calibration offset, in the order [send_goal] reads
    them. *)
Definition offset_loaded (self : Arm) (ox oy oz oroll opitch oyaw : num) : Prop :=
  offset self !! "x" = Some ox /\ offset self !! "y" = Some oy /\
  offset self !! "z" = Some oz /\ offset self !! "roll" = Some oroll /\
  offset self !! "pitch" = Some opitch /\ offset self !! "yaw" = Some oyaw.

End ArmModel.

(** ** A concrete arm and environment for the worked examples *)

Definition amigo_left : @Arm Z string :=
  {| robot_name := "amigo";
     side := "left";
     _occupied_by := Some "coke";
     _operational := true;
     offset := <["x" := 1]> (<["y" := 2]> (<["z" := 3]> (<["roll" := 4]>
                 (<["pitch" := 5]> (<["yaw" := 6]> ∅)))));
     joint_names := ["shoulder_yaw_joint_left"; "shoulder_pitch_joint_left"];
     default_configurations := <["reset" := [0; 0]]> ∅;
     default_trajectories := <["wave" := [[0; 1]; [1; 0; 7]]]> ∅;
     _ac_joint_traj_present := true |}.

(** An environment in which every endpoint answers [status] / [done] and the
    handover detector answers [reply]. *)
Definition env_of (status : GoalStatus) (done : bool) (reply : option bool)
    : @Env Z :=
  {| grasp_precompute_result := fun _ => status;
     gripper_state := status;
     joint_traj_server := true;
     joint_traj_done := fun _ => done;
     handover_reply := fun _ => reply |}.

(** An arm whose offset lacks the key ["roll"] and whose joint-trajectory
    server was not found at construction, and an environment in which it
    stays away. *)
Definition amigo_right : @Arm Z string :=
  {| robot_name := "amigo";
     side := "right";
     _occupied_by := None;
     _operational := false;
     offset := <["x" := 1]> (<["y" := 2]> (<["z" := 3]>
                 (<["pitch" := 5]> (<["yaw" := 6]> ∅))));
     joint_names := ["shoulder_yaw_joint_right"; "shoulder_pitch_joint_right"];
     default_configurations := <["reset" := [0; 0]]> ∅;
     default_trajectories := <["wave" := [[0; 1]; [1; 0]]]> ∅;
     _ac_joint_traj_present := false |}.

Definition env_down : @Env Z :=
  {| grasp_precompute_result := fun _ => ABORTED;
     gripper_state := ABORTED;
     joint_traj_server := false;
     joint_traj_done := fun _ => false;
     handover_reply := fun _ => None |}.

(** [sub in s] for strings. *)
Definition occurs_in (sub s : string) : Prop :=
  exists pre post, s = pre ++ sub ++ post.

(** The sub-reports of [msg] that carry the name [n]. *)
Definition reports_named (n : string) (msg : DiagnosticArray)
    : list DiagnosticStatus :=
  List.filter (fun diag => String.eqb (name diag) n) (status msg).

(** * The head skill ([src/robot_skills/head.py])

    [class Head] keeps the goal it sent last and an at-setpoint flag that
    the action client's callbacks write.  Its methods are embedded in
    state-passing style: a method maps the object to what it returns, the
    object afterwards and the calls it made, oldest first.

    The callbacks run while the caller polls in [_setHeadReferenceGoal].
    What arrives when is read from [polls]: one entry per evaluation of the
    loop condition that happens before the deadline, holding the callbacks
    delivered since the previous evaluation; the evaluation after the last
    entry finds the deadline passed. *)

Module Head.

Section HeadModel.

Context {num : Type} `{Scalar num}.

(** A decimal literal that is not an integer: [dec m e] is [m * 10^e], so
    [0.2] is [dec 2 (-1)]. *)
Variable dec : Z -> Z -> num.

(** [geometry_msgs.PointStamped] (without the stamp). *)
Record PointStamped := {
  header_frame_id : string;
  point_x : num; point_y : num; point_z : num
}.

(** [robot_skills.util.msg_constructors.PointStamped(x, y, z, frame_id)],
    which lives outside these sources. *)
Variable msgs_PointStamped : num -> num -> num -> string -> PointStamped.

Record HeadReferenceGoal := {
  goal_type : num;
  priority : num;
  pan_vel : num;
  tilt_vel : num;
  target_point : PointStamped;
  pan : num;
  tilt : num;
  end_time : num
}.

(** The attributes of a [Head] instance. *)
Record Head := {
  _robot_name : string;
  _goal : option HeadReferenceGoal;
  _at_setpoint : bool
}.

(** What the action client delivers: feedback with its [at_setpoint]
    field, or the end of the goal. *)
Inductive Callback := Feedback (at_setpoint : bool) | Done.

Inductive Event :=
  | SendGoal (g : HeadReferenceGoal)
  | CancelGoal
  | CancelAllGoals
  | PrintWaiting (timeout : num)
  | Sleep
  | LogErrNoSide.

(** [Head.__feedbackCallback] and [Head.__doneCallback]. *)
Definition __feedbackCallback (feedback_at_setpoint : bool) (self : Head) : Head :=
  {| _robot_name := _robot_name self; _goal := _goal self;
     _at_setpoint := feedback_at_setpoint |}.

Definition __doneCallback (self : Head) : Head :=
  {| _robot_name := _robot_name self; _goal := None;
     _at_setpoint := false |}.

Definition deliver (cbs : list Callback) (self : Head) : Head :=
  fold_left (fun s cb => match cb with
                         | Feedback b => __feedbackCallback b s
                         | Done => __doneCallback s
                         end) cbs self.

(** [Head.close] and [Head.cancel_goal]. *)
Definition close (self : Head) : unit * Head * list Event :=
  (tt, self, [CancelAllGoals]).

Definition cancel_goal (self : Head) : unit * Head * list Event :=
  (tt, {| _robot_name := _robot_name self; _goal := None;
          _at_setpoint := false |}, [CancelGoal]).

(** The loop [while (now - start) < Duration(timeout) and not
    self._at_setpoint: rospy.sleep(0.1)]. *)
Fixpoint wait_loop (polls : list (list Callback)) (self : Head)
    : Head * list Event :=
  match polls with
  | [] => (self, [])
  | cbs :: rest =>
      let self := deliver cbs self in
      if negb (_at_setpoint self) then
        let '(self', t) := wait_loop rest self in (self', Sleep :: t)
      else (self, [])
  end.

(** [Head._setHeadReferenceGoal]. *)
Definition _setHeadReferenceGoal (polls : list (list Callback))
    (goal_type pan_vel tilt_vel end_time : num) (point_stamped : PointStamped)
    (pan tilt timeout : num) (self : Head) : unit * Head * list Event :=
  let g := {| goal_type := goal_type; priority := of_Z 0;
              pan_vel := pan_vel; tilt_vel := tilt_vel;
              target_point := point_stamped;
              pan := pan; tilt := tilt; end_time := end_time |} in
  let self := {| _robot_name := _robot_name self; _goal := Some g;
                 _at_setpoint := _at_setpoint self |} in
  if negb (num_eqb timeout (of_Z 0)) then
    let '(self', t) := wait_loop polls self in
    (tt, self', SendGoal g :: PrintWaiting timeout :: t)
  else (tt, self, [SendGoal g]).

(** [Head.look_at_point]; it has no [return], so callers get [None]. *)
Definition look_at_point (polls : list (list Callback))
    (point_stamped : PointStamped) (end_time pan_vel tilt_vel timeout : num)
    (self : Head) : unit * Head * list Event :=
  let '(_, self', t) :=
    _setHeadReferenceGoal polls (of_Z 0) pan_vel tilt_vel end_time
      point_stamped (of_Z 0) (of_Z 0) timeout self in
  (tt, self', t).

(** [look_at_point(p)] and [look_at_point(p, timeout=timeout)] with the
    other parameters at their defaults [0, 0.2, 0.2]. *)
Definition look_at_point_default (polls : list (list Callback))
    (point_stamped : PointStamped) (timeout : num) (self : Head) :=
  look_at_point polls point_stamped (of_Z 0) (dec 2 (-1)) (dec 2 (-1))
    timeout self.

Definition base_link (self : Head) : string :=
  "/" ++ _robot_name self ++ "/base_link".

(** [Head.reset]. *)
Definition reset (polls : list (list Callback)) (timeout : num) (self : Head)
    : unit * Head * list Event :=
  let reset_goal := {| header_frame_id := base_link self;
                       point_x := of_Z 10; point_y := of_Z 0;
                       point_z := of_Z 0 |} in
  look_at_point_default polls reset_goal timeout self.

(** [Head.look_at_hand]; [None] is Python's [None]. *)
Definition look_at_hand (polls : list (list Callback)) (side : string)
    (self : Head) : option bool * Head * list Event :=
  if String.eqb side "left" then
    let '(_, self', t) :=
      look_at_point_default polls
        (msgs_PointStamped (of_Z 0) (of_Z 0) (of_Z 0)
           ("/" ++ _robot_name self ++ "/grippoint_left")) (of_Z 0) self in
    (None, self', t)
  else if String.eqb side "right" then
    let '(_, self', t) :=
      look_at_point_default polls
        (msgs_PointStamped (of_Z 0) (of_Z 0) (of_Z 0)
           ("/" ++ _robot_name self ++ "/grippoint_right")) (of_Z 0) self in
    (None, self', t)
  else (Some false, self, [LogErrNoSide]).

(** [Head.look_at_ground_in_front_of_robot]. *)
Definition look_at_ground_in_front_of_robot (polls : list (list Callback))
    (distance : num) (self : Head) : unit * Head * list Event :=
  let g := {| header_frame_id := base_link self;
              point_x := distance; point_y := of_Z 0; point_z := of_Z 0 |} in
  look_at_point_default polls g (of_Z 0) self.

(** [Head.look_down], [Head.look_up], [Head.look_at_standing_person]: each
    takes a [timeout] and calls [look_at_point(goal)] without it. *)
Definition look_down (polls : list (list Callback)) (timeout : num)
    (self : Head) : unit * Head * list Event :=
  let g := {| header_frame_id := base_link self;
              point_x := of_Z 1; point_y := of_Z 0; point_z := dec 5 (-1) |} in
  look_at_point_default polls g (of_Z 0) self.

Definition look_up (polls : list (list Callback)) (timeout : num)
    (self : Head) : unit * Head * list Event :=
  let g := {| header_frame_id := base_link self;
              point_x := dec 2 (-1); point_y := of_Z 0;
              point_z := dec 45 (-1) |} in
  look_at_point_default polls g (of_Z 0) self.

Definition look_at_standing_person (polls : list (list Callback))
    (timeout : num) (self : Head) : unit * Head * list Event :=
  let g := {| header_frame_id := base_link self;
              point_x := of_Z 1; point_y := of_Z 0;
              point_z := dec 16 (-1) |} in
  look_at_point_default polls g (of_Z 0) self.

(** Reading a trace: the goals sent and the number of sleeps. *)
Fixpoint goals_of (t : list Event) : list HeadReferenceGoal :=
  match t with
  | [] => []
  | SendGoal g :: t' => g :: goals_of t'
  | _ :: t' => goals_of t'
  end.

Fixpoint sleeps_of (t : list Event) : nat :=
  match t with
  | [] => 0%nat
  | Sleep :: t' => S (sleeps_of t')
  | _ :: t' => sleeps_of t'
  end.

End HeadModel.

End Head.

(** A concrete head and constructors for the worked examples. *)
Definition amigo_head : @Head.Head Z :=
  {| Head._robot_name := "amigo"; Head._goal := None;
     Head._at_setpoint := false |}.

(** Decimal literals for the examples: the mantissa alone, which is enough
    to tell the literals of the source apart. *)
Definition mantissa (m e : Z) : Z := m.

Definition point_stamped_Z (px py pz : Z) (frame : string)
    : @Head.PointStamped Z :=
  {| Head.header_frame_id := frame;
     Head.point_x := px; Head.point_y := py; Head.point_z := pz |}.

(** ** More ways to read a trace and an object *)

Definition LogLevel_eqb (a b : LogLevel) : bool :=
  match a, b with
  | LogDebug, LogDebug | LogInfo, LogInfo
  | LogWarn, LogWarn | LogErr, LogErr => true
  | _, _ => false
  end.

Section ArmObservations.

Context {num : Type} `{Scalar num} {Entity : Type}.

(** The lines logged at level [lvl], oldest first. *)
Fixpoint logged (lvl : LogLevel) (t : list (@Event num)) : list (@LogMsg num) :=
  match t with
  | [] => []
  | Log l msg :: t' =>
      if LogLevel_eqb l lvl then msg :: logged lvl t' else logged lvl t'
  | _ :: t' => logged lvl t'
  end.

(** The timeouts handed to [_ac_joint_traj.wait_for_result], oldest first. *)
Fixpoint joint_waits_of (t : list (@Event num)) : list (TimeoutVal num) :=
  match t with
  | [] => []
  | JointTrajWaitForResult d :: t' => d :: joint_waits_of t'
  | _ :: t' => joint_waits_of t'
  end.

(** How often the joint-trajectory server was probed. *)
Fixpoint probes_of (t : list (@Event num)) : nat :=
  match t with
  | [] => 0%nat
  | JointTrajWaitForServer :: t' => S (probes_of t')
  | _ :: t' => probes_of t'
  end.

(** The topics on which [True] was published, oldest first. *)
Fixpoint toggles_of (t : list (@Event num)) : list string :=
  match t with
  | [] => []
  | PublishBool topic true :: t' => topic :: toggles_of t'
  | _ :: t' => toggles_of t'
  end.

(** The offset keys in the order [send_goal] reads them, and the first of
    them that the dict lacks. *)
Definition offset_keys : list string :=
  ["x"; "y"; "z"; "roll"; "pitch"; "yaw"].

Definition first_missing (d : gmap string num) : option string :=
  List.find (fun key => match d !! key with Some _ => false | None => true end)
            offset_keys.

(** Two objects that differ at most in [_occupied_by] and in the cached
    [_ac_joint_traj_present]. *)
Definition same_settings (a b : @Arm num Entity) : Prop :=
  robot_name a = robot_name b /\ side a = side b /\
  _operational a = _operational b /\ offset a = offset b /\
  joint_names a = joint_names b /\
  default_configurations a = default_configurations b /\
  default_trajectories a = default_trajectories b.

End ArmObservations.

(** * Properties *)

(** ** [str.find] *)

Lemma append_nil (b : string) : "" ++ b = b.
Proof. reflexivity. Qed.

Lemma append_cons (c : ascii) (a b : string) :
  String c a ++ b = String c (a ++ b).
Proof. reflexivity. Qed.

Lemma prefix_app (a b : string) : String.prefix a (a ++ b) = true.
Proof.
  induction a as [|c a IH]; [rewrite append_nil; destruct b; reflexivity|].
  rewrite append_cons. simpl.
  destruct (ascii_dec c c); [exact IH | congruence].
Qed.

Lemma prefix_true (a : string) : forall s,
  String.prefix a s = true -> exists b, s = a ++ b.
Proof.
  induction a as [|c a IH]; intros s Hp.
  - exists s. reflexivity.
  - destruct s as [|d s]; [discriminate|]. simpl in Hp.
    destruct (ascii_dec c d) as [->|]; [|discriminate].
    destruct (IH s Hp) as [b ->]. exists b. reflexivity.
Qed.

Lemma find_nil (sub : string) :
  find "" sub = if String.prefix sub "" then 0 else -1.
Proof. reflexivity. Qed.

Lemma find_cons (c : ascii) (s sub : string) :
  find (String c s) sub =
  if String.prefix sub (String c s) then 0
  else if find s sub <? 0 then -1 else find s sub + 1.
Proof. reflexivity. Qed.

Lemma find_prefix (s sub : string) :
  String.prefix sub s = true -> find s sub = 0.
Proof.
  intros Hp. destruct s; [rewrite find_nil | rewrite find_cons];
    rewrite Hp; reflexivity.
Qed.

Lemma find_ge_m1 (sub : string) : forall s, -1 <= find s sub.
Proof.
  induction s as [|c s IH]; [rewrite find_nil | rewrite find_cons].
  - destruct (String.prefix sub ""); lia.
  - destruct (String.prefix sub (String c s)); [lia|].
    destruct (find s sub <? 0) eqn:E; [lia|]. apply Z.ltb_ge in E. lia.
Qed.

Lemma find_occurs (sub post : string) : forall pre,
  0 <= find (pre ++ sub ++ post) sub.
Proof.
  induction pre as [|c pre IH].
  - rewrite append_nil, find_prefix; [lia | apply prefix_app].
  - rewrite append_cons, find_cons.
    destruct (String.prefix sub (String c (pre ++ sub ++ post))); [lia|].
    destruct (find (pre ++ sub ++ post) sub <? 0) eqn:E; [|lia].
    apply Z.ltb_lt in E. lia.
Qed.

(** A non-negative answer is the position of an occurrence. *)
Lemma find_index (sub : string) : forall s,
  0 <= find s sub ->
  exists pre post,
    s = pre ++ sub ++ post /\ find s sub = Z.of_nat (String.length pre).
Proof.
  induction s as [|c s IH]; [rewrite find_nil | rewrite find_cons]; intros Hf.
  - destruct (String.prefix sub "") eqn:Ep; [|lia].
    destruct (prefix_true _ _ Ep) as [b Hb]. exists "", b. split; [exact Hb|].
    reflexivity.
  - destruct (String.prefix sub (String c s)) eqn:Ep.
    + destruct (prefix_true _ _ Ep) as [b Hb]. exists "", b.
      split; [exact Hb | reflexivity].
    + destruct (find s sub <? 0) eqn:E; [lia|].
      apply Z.ltb_ge in E. destruct (IH E) as (pre & post & Hs & Hi).
      exists (String c pre), post. split.
      * rewrite append_cons, <- Hs. reflexivity.
      * rewrite Hi. cbn [String.length]. lia.
Qed.

Lemma find_found (sub s : string) : 0 <= find s sub -> occurs_in sub s.
Proof.
  intros Hf. destruct (find_index sub s Hf) as (pre & post & Hs & _).
  exists pre, post. exact Hs.
Qed.

(** [s.find(sub) < 0] is Python's [sub not in s]. *)
Lemma find_neg_iff (s sub : string) :
  (find s sub <? 0) = true <-> ~ occurs_in sub s.
Proof.
  rewrite Z.ltb_lt. split.
  - intros Hlt (pre & post & ->). pose proof (find_occurs sub post pre). lia.
  - intros Hn. destruct (Z.lt_ge_cases (find s sub) 0) as [|Hge]; [assumption|].
    exfalso. apply Hn, find_found, Hge.
Qed.

Example find_amigo_base_link : find "/amigo/base_link" "amigo" = 1.
Proof. reflexivity. Qed.

Example find_base_link : find "/base_link" "amigo" = -1.
Proof. reflexivity. Qed.

Ltac run :=
  unfold result, self_after, events, log, occupied_by_setter;
  unfold bind, ret, raise, get_self, put_self, emit;
  cbn [fst snd].

Section Properties.

Context {num : Type} `{Scalar num} {Entity : Type}.
Implicit Types (self : @Arm num Entity) (env : @Env num).

(** ** The hardware-status callback *)

Lemma reports_named_spec (n : string) (msg : DiagnosticArray) d :
  In d (reports_named n msg) <-> In d (status msg) /\ name d = n.
Proof.
  unfold reports_named. rewrite filter_In, String.eqb_eq. reflexivity.
Qed.

(** C5. After the hardware-status callback has processed a report, the
    operational flag is [level == 2] of the sub-report named
    ["<side>_arm"] when there is exactly one such sub-report, and is the
    flag's prior value when there is none or more than one.  The callback
    never raises. *)
Theorem cb_hardware_status_operational self (msg : DiagnosticArray) :
  result (cb_hardware_status msg self) = Return tt /\
  _operational (self_after (cb_hardware_status msg self)) =
    match reports_named (side self ++ "_arm") msg with
    | [d] => level d =? 2
    | _ => _operational self
    end.
Proof.
  unfold cb_hardware_status, reports_named. run.
  destruct (List.filter _ (status msg)) as [|d [|d' l]]; cbn.
  - split; reflexivity.
  - destruct (level d =? 2); cbn; split; reflexivity.
  - split; reflexivity.
Qed.

(** ** Frame qualification *)

(** C6. A frame id in which the robot's name does not occur gets exactly
    one ["/<robot_name>"] prepended; a frame id in which it occurs is
    returned as it is; hence qualifying twice gives what qualifying once
    gives. *)
Theorem prefix_frame_id_idempotent self (f : string) :
  (~ occurs_in (robot_name self) f ->
     result (prefix_frame_id f self) = Return ("/" ++ robot_name self ++ f)) /\
  (occurs_in (robot_name self) f ->
     result (prefix_frame_id f self) = Return f) /\
  result (bind (prefix_frame_id f) prefix_frame_id self)
    = result (prefix_frame_id f self).
Proof.
  assert (Hq : (find ("/" ++ robot_name self ++ f) (robot_name self) <? 0)
               = false).
  { apply Z.ltb_ge. apply (find_occurs (robot_name self) f "/"). }
  unfold prefix_frame_id. run.
  destruct (find f (robot_name self) <? 0) eqn:E; cbn.
  - apply find_neg_iff in E. rewrite Hq. cbn.
    split; [reflexivity|]. split; [contradiction | reflexivity].
  - rewrite E. cbn. split; [|split; reflexivity].
    intros Hn. apply find_neg_iff in Hn. congruence.
Qed.

(** ** Cartesian goals *)

(** What [send_goal] does once the offset has been read, for either
    outcome of the timeout test. *)
Lemma send_goal_run self env px py pz roll pitch yaw timeout pre_grasp
    (f : string) first (ato : list string) ox oy oz oroll opitch oyaw :
  offset_loaded self ox oy oz oroll opitch oyaw ->
  let r := send_goal env px py pz roll pitch yaw timeout pre_grasp f first ato
             self in
  let fid := if find f (robot_name self) <? 0
             then "/" ++ robot_name self ++ f else f in
  let g := {| goal := {| frame_id := fid;
                         x := add px ox; y := add py oy; z := add pz oz;
                         roll := add roll oroll; pitch := add pitch opitch;
                         yaw := add yaw oyaw |};
              delta := Target_new;
              PERFORM_PRE_GRASP := pre_grasp;
              FIRST_JOINT_POS_ONLY := first;
              allowed_touch_objects := ato |} in
  result (prefix_frame_id f self) = Return fid /\
  self_after r = self /\
  grasp_goals_of (events r) = [g] /\
  markers_of (events r) =
    [ {| marker_frame_id := fid;
         position_x := px; position_y := py; position_z := pz;
         ns := "grasp_point";
         color_r := CNum 1; color_g := CNum 0; color_b := CNum 0 |};
      {| marker_frame_id := fid;
         position_x := add px ox; position_y := add py oy;
         position_z := add pz oz;
         ns := "grasp_point_corrected";
         color_r := CNum 0; color_g := CNum 1; color_b := CNum 0 |} ] /\
  (num_eqb timeout zero = true ->
     result r = Return true /\ waited (events r) = false) /\
  (num_eqb timeout zero = false ->
     result r = Return (GoalStatus_eqb (grasp_precompute_result env g) SUCCEEDED)).
Proof.
  intros (Hx & Hy & Hz & Hr & Hp & Hw).
  unfold send_goal, prefix_frame_id, _publish_marker, getitem. run.
  rewrite Hx, Hy, Hz, Hr, Hp, Hw.
  destruct (find f (robot_name self) <? 0); cbn;
    destruct (num_eqb timeout zero); cbn;
    try destruct (GoalStatus_eqb _ SUCCEEDED); cbn;
    repeat split; solve [reflexivity | discriminate].
Qed.

(** C1. With the six offset keys loaded, [send_goal] hands the endpoint one
    goal whose six pose fields are the requested pose plus the offset,
    component by component, and publishes exactly two markers: first
    ["grasp_point"] at the requested position, then
    ["grasp_point_corrected"] at the corrected position. *)
Theorem send_goal_offset_and_markers self env px py pz roll0 pitch0 yaw0 timeout
    pre_grasp (f : string) first (ato : list string)
    ox oy oz oroll opitch oyaw :
  offset_loaded self ox oy oz oroll opitch oyaw ->
  let r := send_goal env px py pz roll0 pitch0 yaw0 timeout pre_grasp f first ato
             self in
  (exists g, grasp_goals_of (events r) = [g] /\
     x (goal g) = add px ox /\ y (goal g) = add py oy /\
     z (goal g) = add pz oz /\ roll (goal g) = add roll0 oroll /\
     pitch (goal g) = add pitch0 opitch /\ yaw (goal g) = add yaw0 oyaw) /\
  (exists m1 m2, markers_of (events r) = [m1; m2] /\
     ns m1 = "grasp_point" /\
     (position_x m1, position_y m1, position_z m1) = (px, py, pz) /\
     ns m2 = "grasp_point_corrected" /\
     (position_x m2, position_y m2, position_z m2)
       = (add px ox, add py oy, add pz oz)).
Proof.
  intros Hoff r.
  destruct (send_goal_run self env px py pz roll0 pitch0 yaw0 timeout pre_grasp
              f first ato ox oy oz oroll opitch oyaw Hoff)
    as (_ & _ & Hg & Hm & _).
  split.
  - eexists. split; [exact Hg|]. cbn. repeat split; reflexivity.
  - do 2 eexists. split; [exact Hm|]. cbn. repeat split; reflexivity.
Qed.

(** What [send_delta_goal] does, for either outcome of the timeout test:
    the pose lands in the [delta] fields as given, [goal] keeps its
    defaults, and [use_offset] has no influence. *)
Lemma send_delta_goal_run self env px py pz roll0 pitch0 yaw0 timeout
    pre_grasp (f : string) (use_offset : bool) first :
  let r := send_delta_goal env px py pz roll0 pitch0 yaw0 timeout pre_grasp f
             use_offset first self in
  let g := {| goal := Target_new;
              delta := {| frame_id := f; x := px; y := py; z := pz;
                          roll := roll0; pitch := pitch0; yaw := yaw0 |};
              PERFORM_PRE_GRASP := pre_grasp;
              FIRST_JOINT_POS_ONLY := first;
              allowed_touch_objects := [] |} in
  self_after r = self /\
  grasp_goals_of (events r) = [g] /\
  (num_eqb timeout zero = true ->
     result r = Return true /\ waited (events r) = false) /\
  (num_eqb timeout zero = false ->
     result r = Return (GoalStatus_eqb (grasp_precompute_result env g) SUCCEEDED)).
Proof.
  unfold send_delta_goal, _publish_marker. run.
  destruct (num_eqb timeout zero); cbn;
    try destruct (GoalStatus_eqb _ SUCCEEDED); cbn;
    repeat split; solve [reflexivity | discriminate].
Qed.

(** ** Joint trajectories *)

Lemma trajectory_points_loop_run (n_names n_refs : nat) self :
  forall joints_references : list (list num),
  trajectory_points_loop n_names n_refs joints_references self =
    (Return (map (fun r => {| positions := r |}) joints_references),
     self,
     mismatch_warnings n_names n_refs joints_references).
Proof.
  induction joints_references as [|r rest IH]; [reflexivity|].
  cbn [trajectory_points_loop map mismatch_warnings flat_map].
  unfold mismatch_warnings in IH.
  destruct (negb (length r =? n_names)%nat); run; rewrite IH; cbn;
    rewrite app_nil_r; reflexivity.
Qed.

(** The whole run of [_send_joint_trajectory] when the endpoint is there,
    either already or after the probe. *)
Lemma _send_joint_trajectory_run self env
    (joints_references : list (list num)) (timeout : TimeoutVal num) :
  (_ac_joint_traj_present self || joint_traj_server env) = true ->
  let r := _send_joint_trajectory env joints_references timeout self in
  let ps := map (fun r => {| positions := r |}) joints_references in
  let g := {| trajectory_joint_names := joint_names self;
              trajectory_points := ps;
              goal_time_tolerance := timeout |} in
  events r =
    ((if _ac_joint_traj_present self then [] else [JointTrajWaitForServer])
     ++ mismatch_warnings (length (joint_names self))
          (length joints_references) joints_references
     ++ [Log LogDebug (SendArmToJointcoords (side self) ps);
         JointTrajSendGoal g]
     ++ (if timeout_neq_zero timeout then
           JointTrajWaitForResult
             (timeout_mul timeout (length joints_references))
           :: (if joint_traj_done env g then []
               else [Log LogWarn (CannotReachJointGoal g)])
         else []))%list /\
  result r = (if timeout_neq_zero timeout
              then Return (joint_traj_done env g)
              else Raise (UnboundLocalError "done")).
Proof.
  intros Hpresent. unfold _send_joint_trajectory. run.
  destruct (_ac_joint_traj_present self) eqn:Ep; cbn in Hpresent |- *.
  - rewrite Ep. cbn. rewrite trajectory_points_loop_run. cbn.
    destruct (timeout_neq_zero timeout); cbn.
    + destruct (joint_traj_done env _); cbn;
        rewrite ?app_nil_r; split; reflexivity.
    + rewrite ?app_nil_r. split; reflexivity.
  - rewrite Hpresent. cbn. rewrite trajectory_points_loop_run. cbn.
    destruct (timeout_neq_zero timeout); cbn.
    + destruct (joint_traj_done env _); cbn;
        rewrite ?app_nil_r; split; reflexivity.
    + rewrite ?app_nil_r. split; reflexivity.
Qed.

Lemma mismatch_warnings_In (n_names n_refs : nat)
    (joints_references : list (list num)) :
  Exists (fun r => length r <> n_names) joints_references ->
  In (Log LogWarn (UseCorrectNumberOfJointReferences n_names n_refs))
     (mismatch_warnings n_names n_refs joints_references).
Proof.
  intros Hex. apply List.Exists_exists in Hex as (r & Hin & Hne).
  unfold mismatch_warnings. apply in_flat_map. exists r. split; [exact Hin|].
  destruct (length r =? n_names)%nat eqn:E; cbn.
  - apply Nat.eqb_eq in E. contradiction.
  - left. reflexivity.
Qed.

Lemma joint_goals_of_mismatch_warnings (n_names n_refs : nat)
    (joints_references : list (list num)) (t : list Event) :
  joint_goals_of (mismatch_warnings n_names n_refs joints_references ++ t)%list
    = joint_goals_of t.
Proof.
  unfold mismatch_warnings.
  induction joints_references as [|a l IH]; [reflexivity|].
  cbn [flat_map]. rewrite <- app_assoc.
  destruct (negb _); cbn; exact IH.
Qed.

(** C7. When the endpoint is there and some waypoint has a number of joint
    values different from the number of joint names, the mismatch is
    logged as a warning, and the goal is still handed to the endpoint with
    every waypoint in it, the mismatched ones included; the outcome of the
    call is the one a well-formed trajectory gets. *)
Theorem joint_count_mismatch_still_submits self env
    (joints_references : list (list num)) (timeout : TimeoutVal num) :
  (_ac_joint_traj_present self || joint_traj_server env) = true ->
  Exists (fun r => length r <> length (joint_names self)) joints_references ->
  let r := _send_joint_trajectory env joints_references timeout self in
  let g := {| trajectory_joint_names := joint_names self;
              trajectory_points :=
                map (fun r => {| positions := r |}) joints_references;
              goal_time_tolerance := timeout |} in
  In (Log LogWarn (UseCorrectNumberOfJointReferences
                     (length (joint_names self)) (length joints_references)))
     (events r) /\
  joint_goals_of (events r) = [g] /\
  map positions (trajectory_points g) = joints_references /\
  (timeout_neq_zero timeout = true ->
     result r = Return (joint_traj_done env g)).
Proof.
  intros Hpresent Hex r g.
  destruct (_send_joint_trajectory_run self env joints_references timeout
              Hpresent) as [Hev Hres].
  fold r in Hev, Hres. fold g in Hev, Hres.
  repeat split.
  - rewrite Hev. apply in_or_app. right. apply in_or_app. left.
    apply mismatch_warnings_In, Hex.
  - rewrite Hev.
    destruct (_ac_joint_traj_present self); cbn;
      rewrite joint_goals_of_mismatch_warnings; cbn;
      destruct (timeout_neq_zero timeout); cbn;
      try destruct (joint_traj_done env g); reflexivity.
  - cbn. rewrite map_map. cbn. apply map_id.
  - intros Hnz. rewrite Hres, Hnz. reflexivity.
Qed.

(** C10. A configuration name that is not a key of
    [default_configurations] makes [send_joint_goal] return [False] with
    nothing but a warning emitted, so no trajectory reaches the endpoint;
    likewise for [send_joint_trajectory] and [default_trajectories]. *)
Theorem unknown_name_not_submitted self env (configuration : string) :
  (default_configurations self !! configuration = None ->
     send_joint_goal env configuration self =
       (Return false, self,
        [Log LogWarn (DefaultConfigurationDoesNotExist configuration)])) /\
  (default_trajectories self !! configuration = None ->
     send_joint_trajectory env configuration self =
       (Return false, self,
        [Log LogWarn (DefaultTrajectoriesDoesNotExist configuration)])).
Proof.
  split; intros Hnone; unfold send_joint_goal, send_joint_trajectory; run;
    rewrite Hnone; reflexivity.
Qed.

(** ** The gripper *)

Lemma send_gripper_goal_other self env (state : string)
    (timeout : option num) :
  state <> "open" -> state <> "close" ->
  send_gripper_goal env state timeout self =
    (Return false, self, [Log LogErr (StateShouldBeOpenOrClose state)]).
Proof.
  intros Ho Hc. apply String.eqb_neq in Ho, Hc.
  unfold send_gripper_goal. rewrite Ho, Hc. reflexivity.
Qed.

(** C9. A state other than ['open'] and ['close'] makes
    [send_gripper_goal] return [False], whatever the timeout: the only
    event is the error line, so no goal reaches the gripper endpoint, and
    the object, [occupied_by] included, is as before. *)
Theorem send_gripper_goal_unknown_state self env (state : string)
    (timeout : option num) :
  state <> "open" -> state <> "close" ->
  send_gripper_goal env state timeout self =
    (Return false, self, [Log LogErr (StateShouldBeOpenOrClose state)]).
Proof. apply send_gripper_goal_other. Qed.

(** C2. On the fire-and-forget path [send_gripper_goal] returns [True] for
    ['open'] and ['close'] without waiting, and clears [occupied_by]
    exactly when the state is ['open']; on the blocking path
    [occupied_by] is cleared exactly when the state is ['open'] and the
    endpoint's status is [SUCCEEDED]; a status other than [SUCCEEDED]
    gives [False] and leaves the object as it was; ['close'] leaves the
    object as it was on every path. *)
Theorem send_gripper_goal_occupancy self env (state : string)
    (timeout : option num) :
  let r := send_gripper_goal env state timeout self in
  let succeeded := GoalStatus_eqb (gripper_state env) SUCCEEDED in
  (fire_and_forget timeout = true ->
     (state = "open" \/ state = "close" -> result r = Return true) /\
     waited (events r) = false /\
     self_after r = if String.eqb state "open"
                    then set_occupied_by self None else self) /\
  (fire_and_forget timeout = false ->
     self_after r = if String.eqb state "open" && succeeded
                    then set_occupied_by self None else self) /\
  (fire_and_forget timeout = false -> succeeded = false ->
     result r = Return false /\ self_after r = self) /\
  (state = "close" -> self_after r = self).
Proof.
  cbv zeta.
  destruct (String.eqb_spec state "open") as [->|Ho];
    [|destruct (String.eqb_spec state "close") as [->|Hc]].
  - unfold send_gripper_goal, fire_and_forget.
    destruct timeout as [t|]; [destruct (num_eqb t zero)|];
      destruct (GoalStatus_eqb (gripper_state env) SUCCEEDED) eqn:Es; run;
      rewrite ?Es; cbn; repeat split; intros;
      solve [reflexivity | discriminate].
  - unfold send_gripper_goal, fire_and_forget.
    destruct timeout as [t|]; [destruct (num_eqb t zero)|];
      destruct (GoalStatus_eqb (gripper_state env) SUCCEEDED) eqn:Es; run;
      rewrite ?Es; cbn; repeat split; intros;
      solve [reflexivity | discriminate].
  - rewrite (send_gripper_goal_other self env state timeout Ho Hc).
    run. cbn. repeat split; intros; try reflexivity.
    match goal with Hd : _ \/ _ |- _ => destruct Hd; contradiction end.
Qed.

(** ** Handover *)

(** C8. [handover_to_human] and [handover_to_robot] wait on the
    side-qualified result channel; a reply, whatever its payload, makes
    them return [True], and no reply before the deadline makes them log
    the error and return [False]. *)
Theorem handover_reply_decides self env (timeout : num) :
  let topic := "/" ++ robot_name self ++ "/handoverdetector_" ++ side self
                   ++ "/result" in
  let h := handover_to_human env timeout self in
  let r := handover_to_robot env timeout self in
  In (WaitForMessage topic timeout) (events h) /\
  In (WaitForMessage topic timeout) (events r) /\
  (forall payload : bool, handover_reply env topic = Some payload ->
     result h = Return true /\ result r = Return true) /\
  (handover_reply env topic = None ->
     result h = Return false /\ In (Log LogErr HandoverException) (events h) /\
     result r = Return false /\ In (Log LogErr HandoverException) (events r)).
Proof.
  unfold handover_to_human, handover_to_robot, handover_result_topic. run.
  destruct (handover_reply env _) as [b|]; cbn.
  - repeat split; auto; discriminate.
  - repeat split; auto; discriminate.
Qed.

End Properties.

(** ** Worked examples on the concrete arm *)

Lemma prefix_frame_id_idempotent_witness :
  result (prefix_frame_id "/base_link" amigo_left)
    = Return "/amigo/base_link" /\
  result (prefix_frame_id "/amigo/base_link" amigo_left)
    = Return "/amigo/base_link".
Proof.
  split.
  - apply (proj1 (prefix_frame_id_idempotent amigo_left "/base_link")).
    apply find_neg_iff. reflexivity.
  - apply (proj1 (proj2 (prefix_frame_id_idempotent amigo_left
                           "/amigo/base_link"))).
    exists "/", "/base_link". reflexivity.
Defined.

Lemma send_goal_offset_and_markers_witness :
  offset_loaded amigo_left 1 2 3 4 5 6 /\
  exists g,
    grasp_goals_of
      (events (send_goal (env_of ABORTED false None) 10 20 30 0 0 0 0 false
                 "/base_link" false [] amigo_left)) = [g] /\
    x (goal g) = 11 /\ yaw (goal g) = 6.
Proof.
  assert (Hoff : offset_loaded amigo_left 1 2 3 4 5 6)
    by (repeat split; vm_compute; reflexivity).
  split; [exact Hoff|].
  destruct (send_goal_offset_and_markers amigo_left (env_of ABORTED false None)
              10 20 30 0 0 0 0 false "/base_link" false [] 1 2 3 4 5 6 Hoff)
    as [(g & Hg & Hx & _ & _ & _ & _ & Hyaw) _].
  exists g. repeat split; assumption.
Defined.

Lemma send_gripper_goal_occupancy_witness :
  _occupied_by amigo_left = Some "coke" /\
  _occupied_by (self_after (send_gripper_goal (env_of ABORTED false None)
                              "open" (Some 0) amigo_left)) = None /\
  _occupied_by (self_after (send_gripper_goal (env_of ABORTED false None)
                              "open" (Some 5) amigo_left)) = Some "coke" /\
  _occupied_by (self_after (send_gripper_goal (env_of SUCCEEDED true None)
                              "close" (Some 5) amigo_left)) = Some "coke".
Proof.
  split; [reflexivity|]. split; [|split].
  - pose proof (send_gripper_goal_occupancy amigo_left
                  (env_of ABORTED false None) "open" (Some 0)) as (Hf & _).
    destruct Hf as (_ & _ & ->); reflexivity.
  - pose proof (send_gripper_goal_occupancy amigo_left
                  (env_of ABORTED false None) "open" (Some 5))
      as (_ & _ & Hb & _).
    destruct Hb as (_ & ->); reflexivity.
  - pose proof (send_gripper_goal_occupancy amigo_left
                  (env_of SUCCEEDED true None) "close" (Some 5))
      as (_ & _ & _ & Hc).
    rewrite Hc; reflexivity.
Defined.

Lemma joint_count_mismatch_still_submits_witness :
  map (fun g => map positions (trajectory_points g))
    (joint_goals_of
       (events (_send_joint_trajectory (env_of SUCCEEDED true None)
                  [[0; 1]; [1; 0; 7]] (Duration 5) amigo_left)))
  = [[[0; 1]; [1; 0; 7]]].
Proof.
  destruct (joint_count_mismatch_still_submits amigo_left
              (env_of SUCCEEDED true None) [[0; 1]; [1; 0; 7]] (Duration 5))
    as (_ & -> & _).
  - reflexivity.
  - apply Exists_cons_tl, Exists_cons_hd. cbn. lia.
  - reflexivity.
Defined.

Lemma handover_reply_decides_witness :
  result (handover_to_human (env_of SUCCEEDED true (Some false)) 10 amigo_left)
    = Return true /\
  result (handover_to_robot (env_of SUCCEEDED true None) 10 amigo_left)
    = Return false.
Proof.
  split.
  - pose proof (handover_reply_decides amigo_left
                  (env_of SUCCEEDED true (Some false)) 10) as (_ & _ & Hs & _).
    apply (Hs false). reflexivity.
  - pose proof (handover_reply_decides amigo_left
                  (env_of SUCCEEDED true None) 10) as (_ & _ & _ & Hn).
    apply Hn. reflexivity.
Defined.

Lemma send_gripper_goal_unknown_state_witness :
  send_gripper_goal (env_of SUCCEEDED true None) "half" (Some 0) amigo_left =
    (Return false, amigo_left, [Log LogErr (StateShouldBeOpenOrClose "half")]).
Proof.
  apply (send_gripper_goal_unknown_state amigo_left
           (env_of SUCCEEDED true None) "half" (Some 0)); discriminate.
Defined.

Lemma unknown_name_not_submitted_witness :
  send_joint_goal (env_of SUCCEEDED true None) "wave" amigo_left =
    (Return false, amigo_left,
     [Log LogWarn (DefaultConfigurationDoesNotExist "wave")]) /\
  send_joint_trajectory (env_of SUCCEEDED true None) "reset" amigo_left =
    (Return false, amigo_left,
     [Log LogWarn (DefaultTrajectoriesDoesNotExist "reset")]).
Proof.
  split.
  - apply (proj1 (unknown_name_not_submitted amigo_left
                    (env_of SUCCEEDED true None) "wave")).
    vm_compute. reflexivity.
  - apply (proj2 (unknown_name_not_submitted amigo_left
                    (env_of SUCCEEDED true None) "reset")).
    vm_compute. reflexivity.
Defined.

(** C3. [send_delta_goal] called with [use_offset=True] on an arm whose
    offset is (1, 2, 3, 4, 5, 6): the goal handed to the endpoint carries
    the requested delta (10, 20, 30, 0, 0, 0) unchanged in its [delta]
    fields, not the delta plus the offset. *)
Theorem send_delta_goal_use_offset_ignored :
  offset_loaded amigo_left 1 2 3 4 5 6 /\
  map delta
    (grasp_goals_of
       (events (send_delta_goal (env_of SUCCEEDED true None) 10 20 30 0 0 0 0
                  false "/base_link" true false amigo_left)))
  = [ {| frame_id := "/base_link"; x := 10; y := 20; z := 30;
         roll := 0; pitch := 0; yaw := 0 |} ].
Proof.
  split; [repeat split; vm_compute; reflexivity|].
  rewrite (proj1 (proj2 (send_delta_goal_run amigo_left
             (env_of SUCCEEDED true None) 10 20 30 0 0 0 0 false "/base_link"
             true false))).
  reflexivity.
Qed.

(** C4. [_send_joint_trajectory] called with the float timeout [0.0] while
    the endpoint is there: the goal is handed to the endpoint and nothing
    is waited for, but the call ends in [UnboundLocalError] on [done]
    instead of returning [True].  (With the zero [rospy.Duration] the test
    [timeout != 0.0] holds and the call waits for a result.) *)
Theorem send_joint_trajectory_zero_timeout_raises :
  let r := _send_joint_trajectory (env_of SUCCEEDED true None) [[0; 0]]
             (Seconds 0) amigo_left in
  let d := _send_joint_trajectory (env_of SUCCEEDED true None) [[0; 0]]
             (Duration 0) amigo_left in
  result r = Raise (UnboundLocalError "done") /\
  waited (events r) = false /\
  joint_goals_of (events r) =
    [ {| trajectory_joint_names := joint_names amigo_left;
         trajectory_points := [ {| positions := [0; 0] |} ];
         goal_time_tolerance := Seconds 0 |} ] /\
  waited (events d) = true.
Proof.
  cbv zeta.
  destruct (_send_joint_trajectory_run amigo_left (env_of SUCCEEDED true None)
              [[0; 0]] (Seconds 0)) as [-> ->]; [reflexivity|].
  destruct (_send_joint_trajectory_run amigo_left (env_of SUCCEEDED true None)
              [[0; 0]] (Duration 0)) as [-> _]; [reflexivity|].
  repeat split; reflexivity.
Qed.

(** * Further properties of the arm *)

Section FurtherProperties.

Context {num : Type} `{Scalar num} {Entity : Type}.
Implicit Types (self : @Arm num Entity) (env : @Env num).

(** ** Cartesian goals *)


(** X1. With a timeout other than zero, [send_goal] waits for the endpoint
    and returns whether the status is [SUCCEEDED]; on any other status it
    logs one error that echoes the arguments as the caller passed them
    (the frame id before prefixing), and on success it logs no error. *)
Theorem send_goal_blocking_outcome self env px py pz roll0 pitch0 yaw0 timeout
    pre_grasp (f : string) first (ato : list string)
    ox oy oz oroll opitch oyaw :
  offset_loaded self ox oy oz oroll opitch oyaw ->
  num_eqb timeout zero = false ->
  let r := send_goal env px py pz roll0 pitch0 yaw0 timeout pre_grasp f first
             ato self in
  exists g,
    grasp_goals_of (events r) = [g] /\
    In (GraspPrecomputeSendGoalAndWait g timeout) (events r) /\
    result r = Return (GoalStatus_eqb (grasp_precompute_result env g) SUCCEEDED) /\
    logged LogErr (events r) =
      if GoalStatus_eqb (grasp_precompute_result env g) SUCCEEDED then []
      else [GraspPrecomputeGoalFailed
              {| arg_px := px; arg_py := py; arg_pz := pz;
                 arg_roll := roll0; arg_pitch := pitch0; arg_yaw := yaw0;
                 arg_timeout := timeout; arg_pre_grasp := pre_grasp;
                 arg_frame_id := f; arg_use_offset := None;
                 arg_first_joint_pos_only := first;
                 arg_allowed_touch_objects := Some ato |}].
Proof.
  intros (Hx & Hy & Hz & Hr & Hp & Hw) Ht.
  unfold send_goal, prefix_frame_id, _publish_marker, getitem. run.
  rewrite Hx, Hy, Hz, Hr, Hp, Hw, Ht.
  destruct (find f (robot_name self) <? 0); cbn;
    match goal with
    | |- context [grasp_precompute_result env ?g] => exists g
    end;
    destruct (GoalStatus_eqb _ SUCCEEDED); cbn;
    repeat split; auto 10.
Qed.

(** X2. [send_goal] reads the six offset keys in the order x, y, z, roll,
    pitch, yaw.  If one is missing the call raises [KeyError] for the
    first missing key, after the ["grasp_point"] marker has been published
    and before anything is handed to the endpoint; if none is missing the
    call returns and hands over exactly one goal.  The object is never
    modified. *)
Theorem send_goal_missing_offset_key self env px py pz roll0 pitch0 yaw0
    timeout pre_grasp (f : string) first (ato : list string) :
  let r := send_goal env px py pz roll0 pitch0 yaw0 timeout pre_grasp f first
             ato self in
  self_after r = self /\
  match first_missing (offset self) with
  | Some key =>
      result r = Raise (KeyError key) /\
      grasp_goals_of (events r) = [] /\
      map ns (markers_of (events r)) = ["grasp_point"]
  | None =>
      (exists b, result r = Return b) /\
      length (grasp_goals_of (events r)) = 1%nat /\
      map ns (markers_of (events r)) = ["grasp_point"; "grasp_point_corrected"]
  end.
Proof.
  unfold send_goal, prefix_frame_id, _publish_marker, getitem, first_missing.
  run. cbn [List.find offset_keys].
  destruct (find f (robot_name self) <? 0); cbn;
    destruct (offset self !! "x"); cbn; auto;
    destruct (offset self !! "y"); cbn; auto;
    destruct (offset self !! "z"); cbn; auto;
    destruct (offset self !! "roll"); cbn; auto;
    destruct (offset self !! "pitch"); cbn; auto;
    destruct (offset self !! "yaw"); cbn; auto;
    destruct (num_eqb timeout zero); cbn;
    try destruct (GoalStatus_eqb _ SUCCEEDED); cbn;
    repeat split; eauto.
Qed.


(** X4. [send_delta_goal] uses the caller's frame id as it is, without the
    robot prefix, and leaves the absolute [goal] fields at their defaults;
    since the marker is drawn from those, the one marker it publishes sits
    at the origin of the empty frame whatever delta was requested. *)
Theorem send_delta_goal_marker_at_origin self env px py pz roll0 pitch0 yaw0
    timeout pre_grasp (f : string) (use_offset : bool) first :
  let r := send_delta_goal env px py pz roll0 pitch0 yaw0 timeout pre_grasp f
             use_offset first self in
  markers_of (events r) =
    [ {| marker_frame_id := "";
         position_x := zero; position_y := zero; position_z := zero;
         ns := "";
         color_r := CChr "r"; color_g := CChr "e"; color_b := CChr "d" |} ] /\
  map (fun g => frame_id (delta g)) (grasp_goals_of (events r)) = [f] /\
  map goal (grasp_goals_of (events r)) = [Target_new].
Proof.
  unfold send_delta_goal, _publish_marker. run.
  destruct (num_eqb timeout zero); cbn;
    try destruct (GoalStatus_eqb _ SUCCEEDED); cbn;
    repeat split; reflexivity.
Qed.

(** X5. With a timeout other than zero, [send_delta_goal] returns whether
    the endpoint's status is [SUCCEEDED]; on any other status it logs one
    error echoing its arguments, [use_offset] included. *)
Theorem send_delta_goal_blocking_outcome self env px py pz roll0 pitch0 yaw0
    timeout pre_grasp (f : string) (use_offset : bool) first :
  num_eqb timeout zero = false ->
  let r := send_delta_goal env px py pz roll0 pitch0 yaw0 timeout pre_grasp f
             use_offset first self in
  exists g,
    grasp_goals_of (events r) = [g] /\
    In (GraspPrecomputeSendGoalAndWait g timeout) (events r) /\
    result r = Return (GoalStatus_eqb (grasp_precompute_result env g) SUCCEEDED) /\
    logged LogErr (events r) =
      if GoalStatus_eqb (grasp_precompute_result env g) SUCCEEDED then []
      else [GraspPrecomputeGoalFailed
              {| arg_px := px; arg_py := py; arg_pz := pz;
                 arg_roll := roll0; arg_pitch := pitch0; arg_yaw := yaw0;
                 arg_timeout := timeout; arg_pre_grasp := pre_grasp;
                 arg_frame_id := f; arg_use_offset := Some use_offset;
                 arg_first_joint_pos_only := first;
                 arg_allowed_touch_objects := None |}].
Proof.
  intros Ht. unfold send_delta_goal, _publish_marker. run. rewrite Ht. cbn.
  match goal with
  | |- context [grasp_precompute_result env ?g] => exists g
  end.
  destruct (GoalStatus_eqb _ SUCCEEDED); cbn; repeat split; auto 10.
Qed.

(** ** Joint trajectories *)

Lemma set_ac_joint_traj_present_same self :
  set_ac_joint_traj_present self (_ac_joint_traj_present self) = self.
Proof. destruct self; reflexivity. Qed.

Lemma _send_joint_trajectory_absent self env
    (joints_references : list (list num)) (timeout : TimeoutVal num) :
  _ac_joint_traj_present self = false -> joint_traj_server env = false ->
  _send_joint_trajectory env joints_references timeout self =
    (Return false, self,
     [JointTrajWaitForServer; Log LogWarn JointTrajectoryActionNotPresent]).
Proof.
  intros Hp Hs. unfold _send_joint_trajectory. run.
  rewrite Hp. cbn. rewrite Hs. cbn.
  pose proof (set_ac_joint_traj_present_same self) as E.
  rewrite Hp in E. rewrite E. reflexivity.
Qed.

Lemma probes_of_mismatch_warnings (n_names n_refs : nat)
    (joints_references : list (list num)) (t : list (@Event num)) :
  probes_of (mismatch_warnings n_names n_refs joints_references ++ t)%list
    = probes_of t.
Proof.
  unfold mismatch_warnings.
  induction joints_references as [|a l IH]; [reflexivity|].
  cbn [flat_map]. rewrite <- app_assoc.
  destruct (negb _); cbn; exact IH.
Qed.

Lemma joint_waits_of_mismatch_warnings (n_names n_refs : nat)
    (joints_references : list (list num)) (t : list (@Event num)) :
  joint_waits_of (mismatch_warnings n_names n_refs joints_references ++ t)%list
    = joint_waits_of t.
Proof.
  unfold mismatch_warnings.
  induction joints_references as [|a l IH]; [reflexivity|].
  cbn [flat_map]. rewrite <- app_assoc.
  destruct (negb _); cbn; exact IH.
Qed.

Lemma logged_warn_mismatch_warnings (n_names n_refs : nat)
    (joints_references : list (list num)) (t : list (@Event num)) :
  logged LogWarn
    (mismatch_warnings n_names n_refs joints_references ++ t)%list
  = (repeat (UseCorrectNumberOfJointReferences n_names n_refs)
       (length (List.filter (fun r => negb (length r =? n_names)%nat)
                            joints_references))
     ++ logged LogWarn t)%list.
Proof.
  unfold mismatch_warnings.
  induction joints_references as [|a l IH]; [reflexivity|].
  cbn [flat_map List.filter]. rewrite <- app_assoc.
  destruct (negb _); cbn; rewrite IH; reflexivity.
Qed.

(** The object after [_send_joint_trajectory] and the number of probes, on
    every path. *)
Lemma _send_joint_trajectory_flag self env
    (joints_references : list (list num)) (timeout : TimeoutVal num) :
  let r := _send_joint_trajectory env joints_references timeout self in
  self_after r =
    (if _ac_joint_traj_present self then self
     else set_ac_joint_traj_present self (joint_traj_server env)) /\
  probes_of (events r) = (if _ac_joint_traj_present self then 0 else 1)%nat.
Proof.
  unfold _send_joint_trajectory. run.
  destruct (_ac_joint_traj_present self) eqn:Ep; cbn.
  - rewrite Ep. cbn. rewrite trajectory_points_loop_run. cbn.
    destruct (timeout_neq_zero timeout); cbn;
      try destruct (joint_traj_done env _); cbn;
      rewrite probes_of_mismatch_warnings; split; reflexivity.
  - destruct (joint_traj_server env); cbn; [|split; reflexivity].
    rewrite trajectory_points_loop_run. cbn.
    destruct (timeout_neq_zero timeout); cbn;
      try destruct (joint_traj_done env _); cbn;
      rewrite probes_of_mismatch_warnings; split; reflexivity.
Qed.

(** X6. When the joint-trajectory server was absent and the probe does not
    find it either, [_send_joint_trajectory] returns [False] on every
    timeout, the zero one included: it probes once, warns, hands nothing to
    the endpoint and leaves the object as it was.  The named entry points
    inherit this for every name they know. *)
Theorem joint_trajectory_endpoint_absent self env
    (joints_references : list (list num)) (timeout : TimeoutVal num)
    (configuration : string) :
  _ac_joint_traj_present self = false -> joint_traj_server env = false ->
  let absent := (Return false, self,
                 [JointTrajWaitForServer;
                  Log LogWarn (@JointTrajectoryActionNotPresent num)]) in
  _send_joint_trajectory env joints_references timeout self = absent /\
  (is_Some (default_configurations self !! configuration) ->
     send_joint_goal env configuration self = absent) /\
  (is_Some (default_trajectories self !! configuration) ->
     send_joint_trajectory env configuration self = absent).
Proof.
  intros Hp Hs. cbv zeta. split; [|split].
  - apply _send_joint_trajectory_absent; assumption.
  - intros [c Hc]. unfold send_joint_goal. run. rewrite Hc.
    rewrite _send_joint_trajectory_absent by assumption. reflexivity.
  - intros [t Ht]. unfold send_joint_trajectory. run. rewrite Ht.
    rewrite _send_joint_trajectory_absent by assumption. reflexivity.
Qed.

(** X7. The presence of the joint-trajectory server is cached: a call
    probes at most once, and only when the flag is off; afterwards the flag
    is on if it was on or the probe succeeded; and once it is on, no later
    call probes again, whatever its arguments and whatever the server
    would answer. *)
Theorem joint_trajectory_probe_is_cached self env
    (joints_references : list (list num)) (timeout : TimeoutVal num) :
  let r := _send_joint_trajectory env joints_references timeout self in
  probes_of (events r) = (if _ac_joint_traj_present self then 0 else 1)%nat /\
  _ac_joint_traj_present (self_after r)
    = _ac_joint_traj_present self || joint_traj_server env /\
  forall env' (joints_references' : list (list num))
         (timeout' : TimeoutVal num),
    _ac_joint_traj_present (self_after r) = true ->
    let r' := _send_joint_trajectory env' joints_references' timeout'
                (self_after r) in
    probes_of (events r') = 0%nat /\
    _ac_joint_traj_present (self_after r') = true.
Proof.
  cbv zeta.
  destruct (_send_joint_trajectory_flag self env joints_references timeout)
    as [Hs Hp].
  split; [exact Hp|]. split.
  - rewrite Hs. destruct (_ac_joint_traj_present self) eqn:E;
      [exact E | reflexivity].
  - intros env' refs' timeout' Hon.
    destruct (_send_joint_trajectory_flag
                (self_after (_send_joint_trajectory env joints_references
                               timeout self)) env' refs' timeout')
      as [Hs' Hp'].
    rewrite Hp', Hs', Hon. split; [reflexivity | exact Hon].
Qed.

(** X8. With the server there, [send_joint_goal] on a known name hands over
    a trajectory of exactly that one configuration and
    [send_joint_trajectory] one of exactly the stored waypoints; both use
    the tolerance [Duration(5)], wait [5 * len(waypoints)] for the result
    and return what the wait returns. *)
Theorem named_joint_goals_wait_per_waypoint self env (configuration : string) :
  (_ac_joint_traj_present self || joint_traj_server env) = true ->
  let goal_of (waypoints : list (list num)) :=
    {| trajectory_joint_names := joint_names self;
       trajectory_points := map (fun r => {| positions := r |}) waypoints;
       goal_time_tolerance := Duration (of_Z 5) |} in
  (forall c, default_configurations self !! configuration = Some c ->
     let r := send_joint_goal env configuration self in
     joint_goals_of (events r) = [goal_of [c]] /\
     joint_waits_of (events r) = [Duration (mul_len (of_Z 5) 1)] /\
     result r = Return (joint_traj_done env (goal_of [c]))) /\
  (forall t, default_trajectories self !! configuration = Some t ->
     let r := send_joint_trajectory env configuration self in
     joint_goals_of (events r) = [goal_of t] /\
     joint_waits_of (events r) = [Duration (mul_len (of_Z 5) (length t))] /\
     result r = Return (joint_traj_done env (goal_of t))).
Proof.
  intros Hpresent. cbv zeta.
  assert (Hrun : forall w,
    let r := _send_joint_trajectory env w default_joint_timeout self in
    let g := {| trajectory_joint_names := joint_names self;
                trajectory_points := map (fun r => {| positions := r |}) w;
                goal_time_tolerance := Duration (of_Z 5) |} in
    joint_goals_of (events r) = [g] /\
    joint_waits_of (events r) = [Duration (mul_len (of_Z 5) (length w))] /\
    result r = Return (joint_traj_done env g)).
  { intros w. cbv zeta.
    destruct (_send_joint_trajectory_run self env w default_joint_timeout
                Hpresent) as [Hev Hres].
    rewrite Hev, Hres. unfold default_joint_timeout. cbn.
    destruct (_ac_joint_traj_present self); cbn;
      rewrite joint_goals_of_mismatch_warnings,
              joint_waits_of_mismatch_warnings; cbn;
      destruct (joint_traj_done env _); cbn; repeat split; reflexivity. }
  split.
  - intros c Hc.
    assert (Hdef : send_joint_goal env configuration self
                   = _send_joint_trajectory env [c] default_joint_timeout self).
    { unfold send_joint_goal. run. rewrite Hc.
      destruct (_send_joint_trajectory env [c] default_joint_timeout self)
        as [[o s'] t']. reflexivity. }
    rewrite Hdef. apply (Hrun [c]).
  - intros t Ht.
    assert (Hdef : send_joint_trajectory env configuration self
                   = _send_joint_trajectory env t default_joint_timeout self).
    { unfold send_joint_trajectory. run. rewrite Ht.
      destruct (_send_joint_trajectory env t default_joint_timeout self)
        as [[o s'] t']. reflexivity. }
    rewrite Hdef. apply (Hrun t).
Qed.

(** X9. With the server there, the warnings of a joint-trajectory call are
    one "use the correct number of joint references" line per waypoint of
    the wrong length, each printing the number of joint names and the
    number of waypoints, followed by "cannot reach joint goal" when the
    call waited and the wait failed.  A trajectory whose waypoints all
    have the right length therefore draws no length warning. *)
Theorem mismatch_warning_per_bad_waypoint self env
    (joints_references : list (list num)) (timeout : TimeoutVal num) :
  (_ac_joint_traj_present self || joint_traj_server env) = true ->
  let r := _send_joint_trajectory env joints_references timeout self in
  let n := length (joint_names self) in
  let g := {| trajectory_joint_names := joint_names self;
              trajectory_points :=
                map (fun r => {| positions := r |}) joints_references;
              goal_time_tolerance := timeout |} in
  logged LogWarn (events r) =
    (repeat (UseCorrectNumberOfJointReferences n (length joints_references))
       (length (List.filter (fun w => negb (length w =? n)%nat)
                            joints_references))
     ++ (if timeout_neq_zero timeout && negb (joint_traj_done env g)
         then [CannotReachJointGoal g] else []))%list.
Proof.
  intros Hpresent. cbv zeta.
  destruct (_send_joint_trajectory_run self env joints_references timeout
              Hpresent) as [Hev _].
  rewrite Hev.
  destruct (_ac_joint_traj_present self); cbn;
    rewrite logged_warn_mismatch_warnings; cbn;
    destruct (timeout_neq_zero timeout); cbn;
    try destruct (joint_traj_done env _); reflexivity.
Qed.

(** ** The gripper and the occupancy record *)

(** The whole run of [send_gripper_goal] for ['open'] and ['close']. *)
Lemma send_gripper_goal_run self env (state : string) (timeout : option num)
    (d : Direction) :
  (if String.eqb state "open" then Some OPEN
   else if String.eqb state "close" then Some CLOSE else None) = Some d ->
  let ok := fire_and_forget timeout
            || GoalStatus_eqb (gripper_state env) SUCCEEDED in
  send_gripper_goal env state timeout self =
    (Return ok,
     (if String.eqb state "open" && ok then set_occupied_by self None
      else self),
     GripperSendGoal d ::
       match timeout with
       | Some t => if num_eqb t zero then []
                   else [GripperWaitForResult t; GripperGetState]
       | None => []
       end).
Proof.
  intros Hd. unfold send_gripper_goal, fire_and_forget. rewrite Hd.
  destruct timeout as [t|]; [destruct (num_eqb t zero)|];
    destruct (String.eqb state "open");
    destruct (GoalStatus_eqb (gripper_state env) SUCCEEDED); reflexivity.
Qed.

(** X10. Whatever the caller recorded in [occupied_by] is read back after
    a gripper command, except after an ['open'] that was fire-and-forget
    or succeeded, which reads back [None]: a ['close'], a failed ['open']
    and an unknown state keep the record. *)
Theorem occupied_by_after_gripper_goal self env (state : string)
    (timeout : option num) (value : option Entity) :
  result (bind (occupied_by_setter value)
            (fun _ => bind (send_gripper_goal env state timeout)
                        (fun _ => occupied_by)) self)
  = Return (if String.eqb state "open"
               && (fire_and_forget timeout
                   || GoalStatus_eqb (gripper_state env) SUCCEEDED)
            then None else value).
Proof.
  unfold occupied_by.
  destruct (String.eqb_spec state "open") as [->|Ho];
    [|destruct (String.eqb_spec state "close") as [->|Hc]].
  - run. rewrite (send_gripper_goal_run _ env "open" timeout OPEN eq_refl).
    cbn. destruct (fire_and_forget timeout || _); reflexivity.
  - run. rewrite (send_gripper_goal_run _ env "close" timeout CLOSE eq_refl).
    reflexivity.
  - run. rewrite (send_gripper_goal_other _ env state timeout Ho Hc).
    reflexivity.
Qed.

(** X11. For ['open'] and ['close'] the gripper endpoint receives exactly
    one goal, whose direction is the state asked for, and it receives it
    before anything is waited for; the call waits at most once, with the
    caller's timeout; the other two endpoints receive nothing. *)
Theorem send_gripper_goal_direction self env (state : string)
    (timeout : option num) (d : Direction) :
  state = "open" /\ d = OPEN \/ state = "close" /\ d = CLOSE ->
  let r := send_gripper_goal env state timeout self in
  gripper_goals_of (events r) = [d] /\
  (exists rest, events r = GripperSendGoal d :: rest /\
                gripper_goals_of rest = []) /\
  waited (events r) = negb (fire_and_forget timeout) /\
  grasp_goals_of (events r) = [] /\ joint_goals_of (events r) = [].
Proof.
  intros Hd r.
  assert (Hrun := send_gripper_goal_run self env state timeout d).
  fold r in Hrun.
  rewrite Hrun by (destruct Hd as [[-> ->]|[-> ->]]; reflexivity).
  unfold fire_and_forget.
  destruct timeout as [t|]; [destruct (num_eqb t zero)|]; cbn;
    repeat split; eauto.
Qed.

(** X12. A [None] timeout and a zero timeout are the same request: the two
    runs agree in result, object and events. *)
Theorem send_gripper_goal_none_is_zero self env (state : string) (t : num) :
  num_eqb t zero = true ->
  send_gripper_goal env state None self
    = send_gripper_goal env state (Some t) self.
Proof.
  intros Ht. unfold send_gripper_goal. rewrite Ht. reflexivity.
Qed.

(** ** The hardware-status callback *)

(** The whole run of the callback. *)
Lemma cb_hardware_status_run self (msg : DiagnosticArray) :
  cb_hardware_status msg self =
    match reports_named (side self ++ "_arm") msg with
    | [] => (Return tt, self, [Log LogWarn (NoDiagnosticMsg (side self))])
    | [d] => (Return tt, set_operational self (level d =? 2), [])
    | _ => (Return tt, self, [Log LogWarn (MultipleDiagnosticMsgs (side self))])
    end.
Proof.
  unfold cb_hardware_status, reports_named. run.
  destruct (List.filter _ (status msg)) as [|d [|d' l]]; cbn;
    [reflexivity | | reflexivity].
  destruct (level d =? 2); reflexivity.
Qed.

(** X13. The hardware-status callback writes nothing but the operational
    flag, and it warns exactly when the report does not contain exactly one
    sub-report for this arm: "no diagnostic msg" for none, "multiple
    diagnostic msgs" for several, and nothing else ever leaves the
    callback. *)
Theorem cb_hardware_status_only_flag self (msg : DiagnosticArray) :
  let r := cb_hardware_status msg self in
  (exists b, self_after r = set_operational self b) /\
  events r =
    match reports_named (side self ++ "_arm") msg with
    | [] => [Log LogWarn (NoDiagnosticMsg (side self))]
    | [_] => []
    | _ => [Log LogWarn (MultipleDiagnosticMsgs (side self))]
    end.
Proof.
  cbv zeta. rewrite cb_hardware_status_run.
  destruct (reports_named _ msg) as [|d [|d' l]]; cbn; split;
    try reflexivity; eauto;
    exists (_operational self); destruct self; reflexivity.
Qed.

(** X14. Processing the same report twice leaves the object as processing
    it once; and of two reports processed in a row, a second one with
    exactly one sub-report for this arm alone decides the flag (last write
    wins), while a second one without leaves the first one's verdict. *)
Theorem cb_hardware_status_last_write_wins self (msg1 msg2 : DiagnosticArray) :
  let twice m1 m2 :=
    self_after (bind (cb_hardware_status m1)
                  (fun _ => cb_hardware_status m2) self) in
  twice msg1 msg1 = self_after (cb_hardware_status msg1 self) /\
  _operational (twice msg1 msg2) =
    match reports_named (side self ++ "_arm") msg2 with
    | [d] => level d =? 2
    | _ => _operational (self_after (cb_hardware_status msg1 self))
    end.
Proof.
  cbv zeta. run. rewrite (cb_hardware_status_run self msg1).
  destruct (reports_named _ msg1) as [|d1 [|d1' l1]] eqn:E1;
    cbv beta iota; rewrite !cb_hardware_status_run;
    cbn [side set_operational]; rewrite ?E1;
    (split; [reflexivity|]);
    destruct (reports_named _ msg2) as [|d2 [|d2' l2]]; reflexivity.
Qed.

(** ** Handover *)

Lemma append_inj_l (a b c : string) : a ++ b = a ++ c -> b = c.
Proof.
  induction a as [|ch a IH]; [rewrite !append_nil; auto|].
  rewrite !append_cons. intros Heq. injection Heq as Heq. auto.
Qed.

Lemma append_assoc (a b c : string) : (a ++ b) ++ c = a ++ b ++ c.
Proof.
  induction a as [|ch a IH]; [reflexivity|].
  rewrite !append_cons, IH. reflexivity.
Qed.

(** X15. A handover leaves the object as it was (a reply does not clear
    [occupied_by]) and hands no goal to any endpoint.  Each direction
    publishes [True] once, before it waits, on its own toggle topic, and
    the two toggle topics differ. *)
Theorem handover_leaves_object_untouched self env (timeout : num) :
  let h := handover_to_human env timeout self in
  let r := handover_to_robot env timeout self in
  let base := "/" ++ robot_name self ++ "/handoverdetector_" ++ side self in
  self_after h = self /\ self_after r = self /\
  (exists th resth, events h = PublishBool th true :: resth /\
     toggles_of (events h) = [th] /\ th = base ++ "/toggle_robot2human" /\
   exists tr restr, events r = PublishBool tr true :: restr /\
     toggles_of (events r) = [tr] /\ tr = base ++ "/toggle_human2robot" /\
     th <> tr) /\
  gripper_goals_of (events h ++ events r) = [] /\
  grasp_goals_of (events h ++ events r) = [] /\
  joint_goals_of (events h ++ events r) = [].
Proof.
  assert (Hne : forall a b : string,
            "/" ++ a ++ "/handoverdetector_" ++ b ++ "/toggle_robot2human"
            <> "/" ++ a ++ "/handoverdetector_" ++ b ++ "/toggle_human2robot").
  { intros a b Heq.
    apply (append_inj_l "/") in Heq. apply append_inj_l in Heq.
    apply (append_inj_l "/handoverdetector_") in Heq.
    apply append_inj_l in Heq. discriminate. }
  assert (Hassoc : forall a b c : string,
            ("/" ++ a ++ "/handoverdetector_" ++ b) ++ c
            = "/" ++ a ++ "/handoverdetector_" ++ b ++ c).
  { intros a b c. rewrite !append_assoc. reflexivity. }
  unfold handover_to_human, handover_to_robot, handover_result_topic. run.
  rewrite !Hassoc.
  destruct (handover_reply env _) as [b|]; cbn;
    repeat split; try reflexivity;
    do 2 eexists; (split; [reflexivity|]); (split; [reflexivity|]);
    (split; [reflexivity|]);
    do 2 eexists; (split; [reflexivity|]); (split; [reflexivity|]);
    (split; [reflexivity|]); apply Hne.
Qed.

(** ** What the dispatch methods leave alone *)

(** X16. Only the hardware-status callback writes the operational flag:
    a gripper command changes at most [occupied_by], and a joint-trajectory
    call at most the cached server flag; robot name, side, offset, joint
    names, the named configurations and trajectories and the operational
    flag are as before on every path. *)
Theorem dispatch_preserves_settings self env (state : string)
    (timeout : option num) (joints_references : list (list num))
    (jtimeout : TimeoutVal num) :
  let g := self_after (send_gripper_goal env state timeout self) in
  let j := self_after (_send_joint_trajectory env joints_references jtimeout
                         self) in
  same_settings self g /\
  _ac_joint_traj_present g = _ac_joint_traj_present self /\
  same_settings self j /\
  _occupied_by j = _occupied_by self.
Proof.
  cbv zeta. split; [|split; [|split]].
  - destruct (String.eqb_spec state "open") as [->|Ho];
      [|destruct (String.eqb_spec state "close") as [->|Hc]].
    + rewrite (send_gripper_goal_run _ env "open" timeout OPEN eq_refl).
      cbn. destruct (fire_and_forget timeout || _);
        repeat split; reflexivity.
    + rewrite (send_gripper_goal_run _ env "close" timeout CLOSE eq_refl).
      repeat split; reflexivity.
    + rewrite (send_gripper_goal_other _ env state timeout Ho Hc).
      repeat split; reflexivity.
  - destruct (String.eqb_spec state "open") as [->|Ho];
      [|destruct (String.eqb_spec state "close") as [->|Hc]].
    + rewrite (send_gripper_goal_run _ env "open" timeout OPEN eq_refl).
      cbn. destruct (fire_and_forget timeout || _); reflexivity.
    + rewrite (send_gripper_goal_run _ env "close" timeout CLOSE eq_refl).
      reflexivity.
    + rewrite (send_gripper_goal_other _ env state timeout Ho Hc).
      reflexivity.
  - rewrite (proj1 (_send_joint_trajectory_flag self env joints_references
                      jtimeout)).
    destruct (_ac_joint_traj_present self); repeat split; reflexivity.
  - rewrite (proj1 (_send_joint_trajectory_flag self env joints_references
                      jtimeout)).
    destruct (_ac_joint_traj_present self); reflexivity.
Qed.

End FurtherProperties.

(** * Properties of the head *)

Section HeadProperties.

Context {num : Type} `{Scalar num}.
Variable dec : Z -> Z -> num.
Variable msgs_PointStamped : num -> num -> num -> string -> @Head.PointStamped num.
Implicit Types (self : @Head.Head num) (polls : list (list Head.Callback)).

Lemma deliver_robot_name (cbs : list Head.Callback) : forall self,
  Head._robot_name (Head.deliver cbs self) = Head._robot_name self.
Proof.
  induction cbs as [|cb cbs IH]; intros self; [reflexivity|].
  unfold Head.deliver in *. cbn [fold_left]. rewrite IH.
  destruct cb; reflexivity.
Qed.

(** The polling loop sleeps at most once per evaluation before the
    deadline, ends with the flag on or the deadline passed, sends nothing
    and keeps the robot's name. *)
Lemma wait_loop_spec polls : forall self,
  let r := Head.wait_loop polls self in
  (Head.sleeps_of r.2 <= length polls)%nat /\
  (Head._at_setpoint r.1 = true \/ Head.sleeps_of r.2 = length polls) /\
  Head.goals_of r.2 = [] /\
  Head._robot_name r.1 = Head._robot_name self.
Proof.
  induction polls as [|cbs rest IH]; intros self; cbn.
  - repeat split; auto.
  - destruct (Head._at_setpoint (Head.deliver cbs self)) eqn:E; cbn.
    + repeat split; auto; [lia | apply deliver_robot_name].
    + specialize (IH (Head.deliver cbs self)). cbn in IH.
      destruct (Head.wait_loop rest (Head.deliver cbs self)) as [s t].
      cbn in *. destruct IH as (Hle & Hend & Hg & Hn).
      rewrite deliver_robot_name in Hn.
      repeat split; auto; [lia | destruct Hend; [left | right]; auto].
Qed.

(** X17. [look_at_hand] never returns [True]: for ["left"] and ["right"]
    it sends one goal at the grip point of that side, does not wait, keeps
    the goal as the current one and returns [None]; for any other side it
    logs an error, sends nothing, leaves the object as it was and returns
    [False]. *)
Theorem head_look_at_hand_never_true polls (side : string) self :
  num_eqb zero zero = true ->
  let r := Head.look_at_hand dec msgs_PointStamped polls side self in
  r.1.1 <> Some true /\
  (side = "left" \/ side = "right" ->
     r.1.1 = None /\ Head.sleeps_of r.2 = 0%nat /\
     exists g, Head.goals_of r.2 = [g] /\ Head._goal r.1.2 = Some g /\
       Head.target_point g =
         msgs_PointStamped (of_Z 0) (of_Z 0) (of_Z 0)
           ("/" ++ Head._robot_name self ++ "/grippoint_" ++ side)) /\
  (side <> "left" -> side <> "right" ->
     r = (Some false, self, [Head.LogErrNoSide])).
Proof.
  intros Hz. unfold zero in Hz. cbv zeta.
  unfold Head.look_at_hand, Head.look_at_point_default, Head.look_at_point,
    Head._setHeadReferenceGoal.
  rewrite Hz.
  destruct (String.eqb_spec side "left") as [->|Hl];
    [|destruct (String.eqb_spec side "right") as [->|Hr]]; cbn.
  - split; [discriminate|]. split; [|congruence].
    intros _. repeat split. eexists. repeat split.
  - split; [discriminate|]. split; [|congruence].
    intros _. repeat split. eexists. repeat split.
  - split; [discriminate|]. split; [|reflexivity].
    intros [Hs|Hs]; contradiction.
Qed.

(** X18. [look_down], [look_up], [look_at_standing_person] and
    [look_at_ground_in_front_of_robot] never wait: whatever timeout they
    are given and whatever the callbacks deliver, each sends one goal,
    sleeps zero times and leaves the at-setpoint flag as it found it. *)
Theorem head_fixed_looks_never_wait polls (timeout distance : num) self :
  num_eqb zero zero = true ->
  Forall (fun r : unit * Head.Head * list Head.Event =>
            Head.sleeps_of r.2 = 0%nat /\
            length (Head.goals_of r.2) = 1%nat /\
            Head._goal r.1.2 = head (Head.goals_of r.2) /\
            Head._at_setpoint r.1.2 = Head._at_setpoint self)
    [ Head.look_down dec polls timeout self;
      Head.look_up dec polls timeout self;
      Head.look_at_standing_person dec polls timeout self;
      Head.look_at_ground_in_front_of_robot dec polls distance self ].
Proof.
  intros Hz. unfold zero in Hz.
  unfold Head.look_down, Head.look_up, Head.look_at_standing_person,
    Head.look_at_ground_in_front_of_robot, Head.look_at_point_default,
    Head.look_at_point, Head._setHeadReferenceGoal.
  rewrite Hz. cbn. repeat constructor.
Qed.


(** X20. [cancel_goal] after a goal, however that goal was sent and
    whatever arrived meanwhile, leaves the object with no current goal,
    the at-setpoint flag off and the robot's name as it was; and a goal
    sent without waiting is the current goal until then. *)
Theorem head_cancel_goal_resets polls (goal_type pan_vel tilt_vel end_time : num)
    (point_stamped : @Head.PointStamped num) (pan tilt timeout : num) self :
  let sent := Head._setHeadReferenceGoal polls goal_type pan_vel tilt_vel
                end_time point_stamped pan tilt timeout self in
  let cancelled := Head.cancel_goal sent.1.2 in
  cancelled.1.2 =
    {| Head._robot_name := Head._robot_name self; Head._goal := None;
       Head._at_setpoint := false |} /\
  cancelled.2 = [Head.CancelGoal] /\
  (num_eqb timeout (of_Z 0) = true ->
     Some (Head._goal sent.1.2) = head (map Some (Head.goals_of sent.2))).
Proof.
  cbv zeta. unfold Head._setHeadReferenceGoal, Head.cancel_goal.
  destruct (num_eqb timeout (of_Z 0)); cbn [negb].
  - cbn. repeat split.
  - match goal with
    | |- context [Head.wait_loop polls ?s] =>
        pose proof (wait_loop_spec polls s) as Hw; cbv zeta in Hw;
        destruct (Head.wait_loop polls s) as [s' t]
    end.
    cbn in *. destruct Hw as (_ & _ & _ & ->).
    repeat split. discriminate.
Qed.

End HeadProperties.

(** ** Worked examples for the further properties *)

Lemma send_goal_blocking_outcome_witness :
  result (send_goal (env_of ABORTED false None) 10 20 30 0 0 0 30 false
            "/base_link" false [] amigo_left) = Return false.
Proof.
  destruct (send_goal_blocking_outcome amigo_left (env_of ABORTED false None)
              10 20 30 0 0 0 30 false "/base_link" false [] 1 2 3 4 5 6)
    as (g & _ & _ & Hres & _).
  - repeat split; vm_compute; reflexivity.
  - reflexivity.
  - exact Hres.
Defined.


Lemma send_delta_goal_blocking_outcome_witness :
  result (send_delta_goal (env_of SUCCEEDED true None) 0 0 1 0 0 0 30 false
            "/amigo/base_link" false false amigo_left) = Return true.
Proof.
  destruct (send_delta_goal_blocking_outcome amigo_left
              (env_of SUCCEEDED true None) 0 0 1 0 0 0 30 false
              "/amigo/base_link" false false)
    as (g & _ & _ & Hres & _).
  - reflexivity.
  - exact Hres.
Defined.

Lemma joint_trajectory_endpoint_absent_witness :
  send_joint_goal env_down "reset" amigo_right =
    (Return false, amigo_right,
     [JointTrajWaitForServer; Log LogWarn JointTrajectoryActionNotPresent]).
Proof.
  destruct (joint_trajectory_endpoint_absent amigo_right env_down [] (Seconds 0)
              "reset") as (_ & Hgoal & _).
  - reflexivity.
  - reflexivity.
  - apply Hgoal. exists [0; 0]. vm_compute. reflexivity.
Defined.

Lemma joint_trajectory_probe_is_cached_witness :
  probes_of
    (events (_send_joint_trajectory env_down [[1; 1]] (Duration 5)
               (self_after (_send_joint_trajectory
                              (env_of SUCCEEDED true None) [[0; 0]]
                              (Duration 5) amigo_right)))) = 0%nat.
Proof.
  destruct (joint_trajectory_probe_is_cached amigo_right
              (env_of SUCCEEDED true None) [[0; 0]] (Duration 5))
    as (_ & _ & Hlater).
  apply (Hlater env_down [[1; 1]] (Duration 5)). reflexivity.
Defined.

Lemma named_joint_goals_wait_per_waypoint_witness :
  joint_waits_of (events (send_joint_trajectory (env_of SUCCEEDED true None)
                            "wave" amigo_left)) = [Duration 10].
Proof.
  destruct (named_joint_goals_wait_per_waypoint amigo_left
              (env_of SUCCEEDED true None) "wave") as (_ & Htraj).
  - reflexivity.
  - destruct (Htraj [[0; 1]; [1; 0; 7]]) as (_ & Hw & _).
    + vm_compute. reflexivity.
    + exact Hw.
Defined.

Lemma mismatch_warning_per_bad_waypoint_witness :
  logged LogWarn
    (events (_send_joint_trajectory (env_of SUCCEEDED true None)
               [[0; 1]; [1; 0; 7]; [2]] (Duration 5) amigo_left))
  = [UseCorrectNumberOfJointReferences 2 3;
     UseCorrectNumberOfJointReferences 2 3].
Proof.
  rewrite (mismatch_warning_per_bad_waypoint amigo_left
             (env_of SUCCEEDED true None) [[0; 1]; [1; 0; 7]; [2]]
             (Duration 5)).
  - reflexivity.
  - reflexivity.
Defined.

Lemma send_gripper_goal_direction_witness :
  gripper_goals_of (events (send_gripper_goal (env_of ABORTED false None)
                              "close" (Some 5) amigo_left)) = [CLOSE].
Proof.
  destruct (send_gripper_goal_direction amigo_left (env_of ABORTED false None)
              "close" (Some 5) CLOSE) as (Hd & _).
  - right. split; reflexivity.
  - exact Hd.
Defined.

Lemma send_gripper_goal_none_is_zero_witness :
  send_gripper_goal (env_of ABORTED false None) "open" None amigo_left
  = send_gripper_goal (env_of ABORTED false None) "open" (Some 0) amigo_left.
Proof.
  apply (send_gripper_goal_none_is_zero amigo_left (env_of ABORTED false None)
           "open" 0).
  reflexivity.
Defined.

(** ** Worked examples for the head *)

Lemma head_look_at_hand_never_true_witness :
  (Head.look_at_hand mantissa point_stamped_Z [] "left" amigo_head).1.1 = None /\
  (Head.look_at_hand mantissa point_stamped_Z [] "both" amigo_head).1.1
    = Some false.
Proof.
  split.
  - destruct (head_look_at_hand_never_true mantissa point_stamped_Z [] "left"
                amigo_head) as (_ & Hside & _).
    + reflexivity.
    + apply Hside. left. reflexivity.
  - destruct (head_look_at_hand_never_true mantissa point_stamped_Z [] "both"
                amigo_head) as (_ & _ & Hother).
    + reflexivity.
    + rewrite Hother by discriminate. reflexivity.
Defined.

Lemma head_fixed_looks_never_wait_witness :
  Head.sleeps_of
    (Head.look_down mantissa [[Head.Feedback false]; [Head.Feedback false]] 5
       amigo_head).2 = 0%nat.
Proof.
  pose proof (head_fixed_looks_never_wait mantissa
                [[Head.Feedback false]; [Head.Feedback false]] 5 2 amigo_head)
    as Hall.
  apply Forall_inv in Hall; [|reflexivity].
  apply Hall.
Defined.


Lemma head_cancel_goal_resets_witness :
  Head._goal
    (Head._setHeadReferenceGoal [] 0 2 2 0
       (point_stamped_Z 10 0 0 "/amigo/base_link") 0 0 0 amigo_head).1.2
  <> None.
Proof.
  destruct (head_cancel_goal_resets [] 0 2 2 0
              (point_stamped_Z 10 0 0 "/amigo/base_link") 0 0 0 amigo_head)
    as (_ & _ & Hcur).
  specialize (Hcur eq_refl). intros Hnone.
  rewrite Hnone in Hcur. vm_compute in Hcur. discriminate.
Defined.

Example reset_sleeps_until_at_setpoint :
  Head.sleeps_of
    (Head.reset mantissa
       [[Head.Feedback false]; [Head.Feedback true]; [Head.Feedback false]]
       5 amigo_head).2 = 1%nat.
Proof. reflexivity. Qed.

Example send_goal_without_roll_offset :
  result (send_goal env_down 10 20 30 0 0 0 0 false "/base_link" false []
            amigo_right) = Raise (KeyError "roll").
Proof. vm_compute. reflexivity. Qed.
